(** * rspress: route content resolution and the static build pipeline

    A shallow embedding of [packages/runtime/src/Content.tsx] (the [Content]
    component and its memoised [TransitionContent]) and of the build module
    that follows it in the same file ([bundle], [renderPages], [build]).

    JavaScript strings are modelled as [string]; every operation used by the
    source ([replace], [endsWith], [includes], [concat], [join]) works on
    code units and never inspects their width, so the alphabet is immaterial.
    Asynchronous functions are modelled in a trace-and-error monad: a
    computation yields the list of effects it performed together with either
    a value or the error it threw. *)

From Stdlib Require Import String Ascii List Bool Arith Lia Permutation.
Import ListNotations.
Open Scope list_scope.
Open Scope string_scope.

Set Implicit Arguments.

(** ** The JavaScript string primitives used by the source *)

Module JS.

(** [strip_prefix pat s] is [Some rest] when [s = pat ++ rest]. *)
Fixpoint strip_prefix (pat s : string) : option string :=
  match pat with
  | EmptyString => Some s
  | String a pat' =>
      match s with
      | EmptyString => None
      | String b s' => if Ascii.eqb a b then strip_prefix pat' s' else None
      end
  end.

(** [StringIndexOf] of ECMAScript, returning the text before and after the
    first (leftmost) occurrence of [pat] in [s] instead of its index. *)
Fixpoint find_first (pat s : string) : option (string * string) :=
  match strip_prefix pat s with
  | Some rest => Some (EmptyString, rest)
  | None =>
      match s with
      | EmptyString => None
      | String c s' =>
          match find_first pat s' with
          | Some (pre, post) => Some (String c pre, post)
          | None => None
          end
      end
  end.

(** [String.prototype.includes]. *)
Definition includes (s pat : string) : bool :=
  match find_first pat s with Some _ => true | None => false end.

(** [String.prototype.endsWith]: the last [length suffix] code units of [s]
    are [suffix]; false when [suffix] is longer than [s]. *)
Definition endsWith (s suffix : string) : bool :=
  (String.length suffix <=? String.length s)%nat
  && String.eqb
       (substring (String.length s - String.length suffix) (String.length suffix) s)
       suffix.

(** [GetSubstitution] of ECMAScript for a string pattern (no capture groups,
    no named groups): in the replacement template [$$] stands for a dollar
    sign, [$&] for the matched text, [$`] for the text before the match and
    [$'] for the text after it; a dollar sign followed by anything else
    (digits and [<] included, there being no captures) stands for itself. *)
Fixpoint GetSubstitution (matched before after template : string) : string :=
  match template with
  | EmptyString => EmptyString
  | String c t =>
      if Ascii.eqb c "$" then
        match t with
        | EmptyString => String c EmptyString
        | String d t' =>
            if Ascii.eqb d "$" then String "$" (GetSubstitution matched before after t')
            else if Ascii.eqb d "&" then matched ++ GetSubstitution matched before after t'
            else if Ascii.eqb d "`" then before ++ GetSubstitution matched before after t'
            else if Ascii.eqb d "'" then after ++ GetSubstitution matched before after t'
            else String c (GetSubstitution matched before after t)
        end
      else String c (GetSubstitution matched before after t)
  end.

(** [s.replace(pat, replaceValue)] with a string pattern and a string
    replacement: only the first occurrence is replaced, and the replacement
    is a template expanded by [GetSubstitution]. *)
Definition replace (s pat replaceValue : string) : string :=
  match find_first pat s with
  | None => s
  | Some (pre, post) => pre ++ GetSubstitution pat pre post replaceValue ++ post
  end.

(** [s.replace(pat, fn)] with a string pattern and a callback: the callback
    receives the matched text and its result is inserted as it is. *)
Definition replace_fn (s pat : string) (fn : string -> string) : string :=
  match find_first pat s with
  | None => s
  | Some (pre, post) => pre ++ fn pat ++ post
  end.

(** [Array.prototype.join('')]: [undefined] elements contribute the empty
    string. *)
Fixpoint join_empty (xs : list (option string)) : string :=
  match xs with
  | [] => EmptyString
  | None :: xs' => join_empty xs'
  | Some x :: xs' => x ++ join_empty xs'
  end.

(** [a || b] on strings: the empty string and [undefined] are falsy. *)
Definition or_else (a : option string) (b : string) : string :=
  match a with
  | Some EmptyString | None => b
  | Some x => x
  end.

(** [a ?? b]: only [undefined] (and [null]) select [b]. *)
Definition nullish (A : Type) (a : option A) (b : A) : A :=
  match a with Some x => x | None => b end.

End JS.

(** ** Content.tsx: resolving the current location to route content *)

Module Content.

(** A React element is an object; [===] on objects compares identities, so
    an element is represented by its reference. *)
Definition ReactElement := nat.


Inductive ReactNode :=
  | EmptyFragment                       (* <></> *)
  | ElementNode (e : ReactElement).

(** An entry of the virtual route table and a match returned by the router. *)
Record RouteObject := { path : string; element : ReactElement }.
Record RouteMatch := { route : RouteObject; pathname_matched : string }.

Record Props := { el : ReactElement }.

(** What [Content] hands back to React. *)
Inductive Rendered :=
  | EmptyDiv                                        (* <div></div> *)
  | Direct (e : ReactElement)                       (* return routesElement *)
  | Suspense (fallback : ReactNode) (child : Props) (* <Suspense><TransitionContent/></Suspense> *).

(** What a call can throw: the [TypeError] of a property access on
    [undefined], or the exception of an imported helper, given by its name
    ([normalizeRoutePath] decodes the pathname, which throws a [URIError] on
    a malformed escape). *)
Inductive Exception :=
  | TypeError
  | Thrown (name : string).

Inductive Outcome (A : Type) :=
  | Returned (a : A)
  | Threw (e : Exception).
Arguments Threw {A} e.

(** The build-time route table, the imported helpers ([matchRoutes] of the
    router, [normalizeRoutePath] of ./utils, the hook [useViewTransition] of
    ./hooks), the site data flag and the two build-time environment flags.
    The helpers may throw.  The hook is called during a render of a
    component instance: it reads and updates the memory React keeps for
    that instance, of a type of its own choosing. *)
Record Runtime := {
  routes : list RouteObject;
  matchRoutes : list RouteObject -> string -> Outcome (option (list RouteMatch));
  normalizeRoutePath : string -> Outcome string;
  Memory : Type;
  useViewTransition : Memory -> ReactElement -> ReactElement * Memory;
  enableContentAnimation : bool;
  REACT_GTE_18 : bool;
  SSR : bool
}.






(** [Content]; [pathname] is what [useLocation] returns.  An exception of
    [normalizeRoutePath] or of [matchRoutes] leaves [Content]; indexing an
    empty match array yields [undefined], whose [route] property access
    throws. *)
Definition Content (R : Runtime) (fallback : option ReactNode) (pathname : string)
  : Outcome Rendered :=
  match normalizeRoutePath R pathname with
  | Threw e => Threw e
  | Returned normalized =>
      match matchRoutes R (routes R) normalized with
      | Threw e => Threw e
      | Returned None => Returned EmptyDiv
      | Returned (Some []) => Threw TypeError
      | Returned (Some (m :: _)) =>
          let routesElement := element (route m) in
          if negb (REACT_GTE_18 R) && SSR R then Returned (Direct routesElement)
          else Returned (Suspense (JS.nullish fallback EmptyFragment)
                                  {| el := routesElement |})
      end
  end.

(** The element a rendered tree shows for the route, if any. *)
Definition shown (r : Rendered) : option ReactElement :=
  match r with
  | EmptyDiv => None
  | Direct e => Some e
  | Suspense _ child => Some (el child)
  end.

End Content.

(** ** The build module: [bundle], [renderPages], [build] *)

Module Build.

Record Error := { message : string; stack : string }.

Inductive Outcome (A : Type) :=
  | Returned (a : A)
  | Threw (e : Error).
Arguments Threw {A} e.

(** Every call that leaves the module is recorded, in the order of the
    calls, with the arguments the source passes. *)
Inductive Effect :=
  | LogInfo (msg : string)
  | LogWarn (msg : string)
  | LogError (msg : string)
  | LogErrorObject (e : Error)
  | LogSuccess (msg : string)
  | ImportModule (url : string)
  | SSRRender (url : string)
  | GetRoutes
  | FsReadFile (file : string)
  | FsEnsureDir (dir : string)
  | FsWriteFile (file data : string)
  | FsRemove (dir : string)
  | FsPathExists (dir : string)
  | FsCopy (src dest : string)
  | FsEmptyDir (dir : string)
  | InitRsbuild (isSSR : bool) (distRoot : option string)
  | BuilderBuild (isSSR : bool)
  | WriteSearchIndex
  | PluginInit
  | PluginModifyConfig
  | PluginBeforeBuild
  | PluginAfterBuild
  | PluginAddSSGRoutes.

(** An asynchronous computation: the effects performed, then the value it
    resolves to or the error it rejects with. *)
Definition Async (A : Type) : Type := (list Effect * Outcome A)%type.

Definition ret {A} (a : A) : Async A := ([], Returned a).
Definition throw {A} (e : Error) : Async A := ([], Threw e).

Definition bind {A B} (m : Async A) (k : A -> Async B) : Async B :=
  match m with
  | (t, Returned a) => let (t', r) := k a in ((t ++ t')%list, r)
  | (t, Threw e) => (t, Threw e)
  end.

(** An external call: the call is recorded and the world's answer returned. *)
Definition call {A} (ev : Effect) (answer : Outcome A) : Async A := ([ev], answer).
Definition emit (ev : Effect) : Async unit := ([ev], Returned tt).

(** [try { body } catch (e) { handler e }]. *)
Definition try_catch {A} (body : Async A) (handler : Error -> Async A) : Async A :=
  match body with
  | (t, Returned a) => (t, Returned a)
  | (t, Threw e) => let (t', r) := handler e in ((t ++ t')%list, r)
  end.

(** [try { body } finally { fin }]: [fin] runs on every way out of [body];
    an error thrown by [fin] replaces the outcome of [body]. *)
Definition try_finally {A} (body : Async A) (fin : Async unit) : Async A :=
  match body, fin with
  | (t, r), (t', Returned _) => ((t ++ t')%list, r)
  | (t, _), (t', Threw e) => ((t ++ t')%list, Threw e)
  end.

(** [Promise.all] over an array of already started tasks: every task runs,
    and the result rejects with an error of a rejected task (the first one
    in array order here; which one settles first is a matter of timing). *)
Fixpoint all {A} (tasks : list (Async A)) : Async (list A) :=
  match tasks with
  | [] => ([], Returned [])
  | (t, r) :: rest =>
      let (t', rs) := all rest in
      ((t ++ t')%list,
       match r, rs with
       | Returned a, Returned l => Returned (a :: l)
       | Threw e, _ => Threw e
       | Returned _, Threw e => Threw e
       end)
  end.

Declare Scope async_scope.
Delimit Scope async_scope with async.
Notation "x <- m ;; k" := (bind m (fun x => k))
  (at level 61, m at next level, right associativity) : async_scope.
Notation "m ;; k" := (bind m (fun _ => k))
  (at level 61, right associativity) : async_scope.
Open Scope async_scope.

Definition trace {A} (m : Async A) : list Effect := fst m.
Definition outcome {A} (m : Async A) : Outcome A := snd m.

(** *** Configuration and constants *)

Record UserConfig := {
  outDir : option string;
  base : option string;
  head : option (list string);
  ssg : option bool
}.

(** The constants imported from ./constants and @rspress/shared, and the
    pure helpers imported from path, url and @rspress/shared. *)
Record Deps := {
  OUTPUT_DIR : string;
  APP_HTML_MARKER : string;
  HEAD_MARKER : string;
  HTML_START_TAG : string;
  BODY_START_TAG : string;
  PUBLIC_DIR : string;
  TEMP_DIR : string;
  APPEARANCE_KEY : string;
  join : list string -> string;
  dirname : string -> string;
  pathToFileURL : string -> string;
  normalizeSlash : string -> string;
  withBase : string -> string -> string
}.

Definition nl : string := String "010" EmptyString.
Definition dq : string := String "034" EmptyString.

Definition CHECK_DARK_LIGHT_SCRIPT (D : Deps) : string :=
  nl ++ "<script id=" ++ dq ++ "check-dark-light" ++ dq ++ ">" ++ nl
  ++ ";(() => {" ++ nl
  ++ "  const saved = localStorage.getItem('" ++ APPEARANCE_KEY D ++ "')" ++ nl
  ++ "  const prefereDark = window.matchMedia('(prefers-color-scheme: dark)').matches" ++ nl
  ++ "  if (!saved || saved === 'auto' ? prefereDark : saved === 'dark') {" ++ nl
  ++ "    document.documentElement.classList.add('dark')" ++ nl
  ++ "  }" ++ nl
  ++ "})()" ++ nl
  ++ "</script>" ++ nl.

(** *** The collaborators *)

(** The server state the helmet provider leaves in the context object; each
    field is an object with a [toString] method, given here by its text. *)
Record HelmetServerState := {
  title : option string;
  meta : option string;
  link : option string;
  style : option string;
  script : option string;
  htmlAttributes : option string;
  bodyAttributes : option string
}.

(** One call of the SSR bundle's [render(url, context)]: it resolves to
    [appHtml] or rejects, and it may have stored [helmet] in the context
    object it was given, which the caller reads afterwards. *)
Record RenderCall := {
  resolved : Outcome string;
  context_helmet : option HelmetServerState
}.

Definition RenderFn := string -> RenderCall.

Record Route := { routePath : string }.
Record AdditionalRoute := { route_path : string }.

(** The answers of the outside world to the calls of the module. *)
Record World := {
  importSSR : string -> Outcome (option RenderFn);
  getRoutes : list Route;
  readFile : string -> Outcome string;
  addSSGRoutes : Outcome (list AdditionalRoute);
  ensureDir : string -> Outcome unit;
  writeFile : string -> string -> Outcome unit;
  remove : string -> Outcome unit;
  totalTime : string;
  initRsbuild : bool -> Outcome unit;
  builderBuild : bool -> Outcome unit;
  pathExists : string -> Outcome bool;
  copy : string -> string -> Outcome unit;
  emptyDir : string -> Outcome unit;
  writeSearchIndex : UserConfig -> Outcome unit;
  pluginInit : Outcome unit;
  pluginModifyConfig : Outcome UserConfig;
  pluginBeforeBuild : Outcome unit;
  pluginAfterBuild : Outcome unit
}.

(** *** bundle *)

(** The [try] block of [bundle]. *)
Definition bundling (D : Deps) (W : World) (docDirectory : string)
    (config : UserConfig) (enableSSG : bool) : Async unit :=
  let outputDir := JS.nullish (outDir config) (OUTPUT_DIR D) in
  (if enableSSG then
     builders <- all [ call (InitRsbuild false None) (initRsbuild W false);
                       call (InitRsbuild true (Some (outputDir ++ "/ssr")))
                            (initRsbuild W true) ] ;;
     all [ call (BuilderBuild false) (builderBuild W false);
           call (BuilderBuild true) (builderBuild W true) ] ;;
     ret tt
   else
     call (InitRsbuild false None) (initRsbuild W false) ;;
     call (BuilderBuild false) (builderBuild W false)) ;;
  let publicDir := join D [docDirectory; PUBLIC_DIR D] in
  found <- call (FsPathExists publicDir) (pathExists W publicDir) ;;
  if found : bool then call (FsCopy publicDir outputDir) (copy W publicDir outputDir)
  else ret tt.

Definition bundle (D : Deps) (W : World) (docDirectory : string)
    (config : UserConfig) (enableSSG : bool) : Async unit :=
  try_finally (bundling D W docDirectory config enableSSG)
              (call WriteSearchIndex (writeSearchIndex W config)).

(** *** renderPages *)

(** The local function [normalizeHtmlFilePath] of the per-route callback. *)
Definition normalizeHtmlFilePath (D : Deps) (config : UserConfig) (path : string) : string :=
  let normalizedBase := normalizeSlash D (JS.or_else (base config) "/") in
  if JS.endsWith path "/" then JS.replace (path ++ "index.html") normalizedBase ""
  else JS.replace (path ++ ".html") normalizedBase "".

(** [helmet?.field?.toString()]. *)
Definition helmet_field (helmet : option HelmetServerState)
    (field : HelmetServerState -> option string) : option string :=
  match helmet with Some h => field h | None => None end.

(** The array joined into the replacement of the head marker. *)
Definition head_parts (D : Deps) (config : UserConfig)
    (helmet : option HelmetServerState) : list (option string) :=
  (List.map Some (JS.nullish (head config) []) ++
   [ helmet_field helmet title;
     helmet_field helmet meta;
     helmet_field helmet link;
     helmet_field helmet style;
     helmet_field helmet script;
     Some (CHECK_DARK_LIGHT_SCRIPT D) ])%list.

Definition head_replacement (D : Deps) (config : UserConfig)
    (helmet : option HelmetServerState) : string :=
  JS.join_empty (head_parts D config helmet).

(** The variable [html] of the per-route callback once all substitutions
    are done: the app marker is replaced through a callback, the head marker
    and the two start tags with a replacement string. *)
Definition html (D : Deps) (config : UserConfig) (htmlTemplate appHtml : string)
    (helmet : option HelmetServerState) : string :=
  let html0 :=
    JS.replace
      (JS.replace_fn htmlTemplate (APP_HTML_MARKER D) (fun _ => appHtml))
      (HEAD_MARKER D)
      (head_replacement D config helmet) in
  let html1 :=
    match helmet_field helmet htmlAttributes with
    | Some attrs => JS.replace html0 (HTML_START_TAG D) (HTML_START_TAG D ++ " " ++ attrs)
    | None => html0
    end in
  match helmet_field helmet bodyAttributes with
  | Some attrs => JS.replace html1 (BODY_START_TAG D) (BODY_START_TAG D ++ " " ++ attrs)
  | None => html1
  end.

Definition render_warning (routePath : string) (e : Error) : string :=
  "page " ++ dq ++ routePath ++ dq ++ " render error: " ++ message e ++ ", fallback to CSR.".

Definition load_warning (ssrBundlePath : string) : string :=
  "Failed to load SSR bundle: " ++ ssrBundlePath ++ ", fallback to CSR.".

(** The callback mapped over the static routes.  The helmet context is a
    fresh object per route; [render] receives it and the callback reads it
    back after the call, whether the call resolved or rejected. *)
Definition renderPage (D : Deps) (W : World) (config : UserConfig)
    (outputPath htmlTemplate : string) (render : option RenderFn) (route : Route)
  : Async unit :=
  let routePath := routePath route in
  appHtml <-
    match render with
    | Some f =>
        try_catch (call (SSRRender routePath) (resolved (f routePath)))
                  (fun e => emit (LogWarn (render_warning routePath e)) ;; ret "")
    | None => ret ""
    end ;;
  let helmet :=
    match render with
    | Some f => context_helmet (f routePath)
    | None => None
    end in
  let fileName := normalizeHtmlFilePath D config routePath in
  let dir := join D [outputPath; dirname D fileName] in
  let file := join D [outputPath; fileName] in
  let data := html D config htmlTemplate appHtml helmet in
  call (FsEnsureDir dir) (ensureDir W dir) ;;
  call (FsWriteFile file data) (writeFile W file data).

Definition isStatic (route : Route) : bool := negb (JS.includes (routePath route) ":").

Definition outputPath_of (D : Deps) (appDirectory : string) (config : UserConfig) : string :=
  JS.nullish (outDir config) (join D [appDirectory; OUTPUT_DIR D]).

Definition ssrBundlePath_of (D : Deps) (appDirectory : string) (config : UserConfig) : string :=
  join D [outputPath_of D appDirectory config; "ssr"; "bundles"; "main.js"].

Definition htmlTemplatePath_of (D : Deps) (appDirectory : string) (config : UserConfig) : string :=
  join D [outputPath_of D appDirectory config; "html"; "main"; "index.html"].

(** The routes the page callback is mapped over. *)
Definition staticRoutes (D : Deps) (W : World) (config : UserConfig)
    (extra : list AdditionalRoute) : list Route :=
  let base := JS.nullish (base config) "" in
  let additionalRoutes :=
    List.map (fun r => {| routePath := withBase D (route_path r) base |}) extra in
  List.filter isStatic (getRoutes W ++ additionalRoutes)%list.

(** [renderPages]; the dynamic import of the file system module at the
    head of the [try] block is taken to succeed, and the page callbacks
    handed to [Promise.all] are run in array order. *)
Definition renderPages (D : Deps) (W : World) (appDirectory : string)
    (config : UserConfig) (enableSSG : bool) : Async unit :=
  emit (LogInfo "Rendering pages...") ;;
  let outputPath := outputPath_of D appDirectory config in
  let ssrBundlePath := ssrBundlePath_of D appDirectory config in
  try_catch
    (render <-
       (if enableSSG then
          try_catch
            (call (ImportModule (pathToFileURL D ssrBundlePath))
                  (importSSR W (pathToFileURL D ssrBundlePath)))
            (fun e =>
               emit (LogErrorObject e) ;;
               emit (LogWarn (load_warning ssrBundlePath)) ;;
               ret None)
        else ret None) ;;
     emit GetRoutes ;;
     let htmlTemplatePath := htmlTemplatePath_of D appDirectory config in
     htmlTemplate <- call (FsReadFile htmlTemplatePath) (readFile W htmlTemplatePath) ;;
     extra <- call PluginAddSSGRoutes (addSSGRoutes W) ;;
     all (List.map (renderPage D W config outputPath htmlTemplate render)
                   (staticRoutes D W config extra)) ;;
     call (FsRemove (join D [outputPath; "ssr"])) (remove W (join D [outputPath; "ssr"])) ;;
     call (FsRemove (join D [outputPath; "html"])) (remove W (join D [outputPath; "html"])) ;;
     emit (LogSuccess ("Pages rendered in " ++ totalTime W ++ " ms.")))
    (fun e => emit (LogError ("Pages render error: " ++ stack e)) ;; throw e).

(** *** build *)

Definition build (D : Deps) (W : World) (docDirectory appDirectory : string)
    (config : UserConfig) : Async unit :=
  let enableSSG := JS.nullish (ssg config) true in
  call PluginInit (pluginInit W) ;;
  modifiedConfig <- call PluginModifyConfig (pluginModifyConfig W) ;;
  call PluginBeforeBuild (pluginBeforeBuild W) ;;
  call (FsEmptyDir (TEMP_DIR D)) (emptyDir W (TEMP_DIR D)) ;;
  bundle D W docDirectory modifiedConfig enableSSG ;;
  renderPages D W appDirectory modifiedConfig enableSSG ;;
  call PluginAfterBuild (pluginAfterBuild W).

(** The files written by a run, in the order of the writes. *)
Fixpoint writes (t : list Effect) : list (string * string) :=
  match t with
  | [] => []
  | FsWriteFile file data :: t' => (file, data) :: writes t'
  | _ :: t' => writes t'
  end.

Fixpoint warnings (t : list Effect) : list string :=
  match t with
  | [] => []
  | LogWarn msg :: t' => msg :: warnings t'
  | _ :: t' => warnings t'
  end.

Fixpoint renders (t : list Effect) : list string :=
  match t with
  | [] => []
  | SSRRender url :: t' => url :: renders t'
  | _ :: t' => renders t'
  end.

Definition is_WriteSearchIndex (ev : Effect) : bool :=
  match ev with WriteSearchIndex => true | _ => false end.

(** *** The per-route callback seen from outside

    The values of the callback's variables [appHtml] and [helmet] after the
    render attempt, the paths it passes to the file system, and the effects
    of the render attempt and of the bundle import. *)

Definition appHtml_for (render : option RenderFn) (routePath : string) : string :=
  match render with
  | Some f => match resolved (f routePath) with Returned a => a | Threw _ => "" end
  | None => ""
  end.

Definition helmet_for (render : option RenderFn) (routePath : string)
  : option HelmetServerState :=
  match render with
  | Some f => context_helmet (f routePath)
  | None => None
  end.

Definition page_dir (D : Deps) (config : UserConfig) (outputPath : string) (route : Route) :=
  join D [outputPath; dirname D (normalizeHtmlFilePath D config (routePath route))].

Definition page_file (D : Deps) (config : UserConfig) (outputPath : string) (route : Route) :=
  join D [outputPath; normalizeHtmlFilePath D config (routePath route)].

Definition page_data (D : Deps) (config : UserConfig) (htmlTemplate : string)
    (render : option RenderFn) (route : Route) : string :=
  html D config htmlTemplate (appHtml_for render (routePath route))
       (helmet_for render (routePath route)).

Definition attempt_events (render : option RenderFn) (routePath : string) : list Effect :=
  match render with
  | None => []
  | Some f =>
      SSRRender routePath ::
      match resolved (f routePath) with
      | Returned _ => []
      | Threw e => [LogWarn (render_warning routePath e)]
      end
  end.

(** The render function [renderPages] ends up with, and the effects of
    obtaining it. *)
Definition render_of (D : Deps) (W : World) (appDirectory : string)
    (config : UserConfig) (enableSSG : bool) : option RenderFn :=
  if enableSSG then
    match importSSR W (pathToFileURL D (ssrBundlePath_of D appDirectory config)) with
    | Returned r => r
    | Threw _ => None
    end
  else None.

Definition load_events (D : Deps) (W : World) (appDirectory : string)
    (config : UserConfig) (enableSSG : bool) : list Effect :=
  if enableSSG then
    ImportModule (pathToFileURL D (ssrBundlePath_of D appDirectory config)) ::
    match importSSR W (pathToFileURL D (ssrBundlePath_of D appDirectory config)) with
    | Returned _ => []
    | Threw e => [LogErrorObject e;
                  LogWarn (load_warning (ssrBundlePath_of D appDirectory config))]
    end
  else [].

End Build.

(** ** Concrete collaborators for running the model

    The theorems below hold for every [Deps], [World] and [Runtime]; the
    instances here are stand-ins for the imported helpers (simple paths
    only) on which the model is evaluated in the examples. *)

Module Sample.
Import Build.

(** Text before the last slash of a path, if it has one. *)
Fixpoint before_last_slash (s : string) : option string :=
  match s with
  | EmptyString => None
  | String c s' =>
      match before_last_slash s' with
      | Some d => Some (String c d)
      | None => if Ascii.eqb c "/" then Some EmptyString else None
      end
  end.

Definition dirname (p : string) : string :=
  match before_last_slash p with
  | Some EmptyString => "/"
  | Some d => d
  | None => "."
  end.

Fixpoint collapse_slashes (s : string) : string :=
  match s with
  | EmptyString => EmptyString
  | String c s' =>
      match s' with
      | String d _ =>
          if Ascii.eqb c "/" && Ascii.eqb d "/" then collapse_slashes s'
          else String c (collapse_slashes s')
      | EmptyString => String c EmptyString
      end
  end.

Definition join (segments : list string) : string :=
  collapse_slashes (String.concat "/" segments).

Definition addLeadingSlash (url : string) : string :=
  match url with
  | String "/" _ => url
  | _ => "/" ++ url
  end.

Definition removeTrailingSlash (url : string) : string :=
  if JS.endsWith url "/" then substring 0 (String.length url - 1) url else url.

Definition normalizeSlash (url : string) : string :=
  removeTrailingSlash (addLeadingSlash url).

Definition withBase (url base : string) : string :=
  collapse_slashes (addLeadingSlash (normalizeSlash base ++ "/" ++ url)).

Definition deps : Deps := {|
  OUTPUT_DIR := "doc_build";
  APP_HTML_MARKER := "<!--<?- DOC_CONTENT ?>-->";
  HEAD_MARKER := "<!--<?- HEAD ?>-->";
  HTML_START_TAG := "<html";
  BODY_START_TAG := "<body";
  PUBLIC_DIR := "public";
  TEMP_DIR := "node_modules/.rspress";
  APPEARANCE_KEY := "rspress-theme-appearance";
  Build.join := join;
  Build.dirname := dirname;
  pathToFileURL := fun p => "file://" ++ p;
  Build.normalizeSlash := normalizeSlash;
  Build.withBase := withBase
|}.

Definition template : string :=
  "<html><head><!--<?- HEAD ?>--></head><body><div id='root'><!--<?- DOC_CONTENT ?>--></div></body></html>".

Definition config : UserConfig :=
  {| outDir := Some "/out"; base := Some "/docs"; head := Some ["<meta a>"]; ssg := None |}.

Definition boom : Error := {| message := "boom"; stack := "Error: boom" |}.

Definition no_helmet : HelmetServerState :=
  {| title := None; meta := None; link := None; style := None; script := None;
     htmlAttributes := None; bodyAttributes := None |}.

(** An SSR bundle whose [render] succeeds everywhere except on [/docs/x]. *)
Definition flaky_render : RenderFn := fun url =>
  if String.eqb url "/docs/x"
  then {| resolved := Threw boom; context_helmet := None |}
  else {| resolved := Returned ("<main>" ++ url ++ "</main>");
          context_helmet :=
            Some {| title := Some "<title>T</title>"; meta := None; link := None;
                    style := None; script := None;
                    htmlAttributes := None; bodyAttributes := None |} |}.

(** A [render] that has stored helmet data in the context it was given by
    the time it rejects. *)
Definition late_failure : RenderFn := fun _ =>
  {| resolved := Threw boom;
     context_helmet :=
       Some {| title := Some "<title>T</title>"; meta := None; link := None;
               style := None; script := None;
               htmlAttributes := None; bodyAttributes := None |} |}.

(** A world in which every file operation succeeds; [load] is the answer to
    the import of the SSR bundle. *)
Definition world (load : Outcome (option RenderFn)) : World := {|
  importSSR := fun _ => load;
  getRoutes := [ {| routePath := "/docs/guide/" |};
                 {| routePath := "/docs/x" |};
                 {| routePath := "/docs/user/:id" |} ];
  readFile := fun _ => Returned template;
  addSSGRoutes := Returned [ {| route_path := "/extra" |} ];
  ensureDir := fun _ => Returned tt;
  writeFile := fun _ _ => Returned tt;
  remove := fun _ => Returned tt;
  totalTime := "12";
  initRsbuild := fun _ => Returned tt;
  builderBuild := fun isSSR => if isSSR then Threw boom else Returned tt;
  pathExists := fun _ => Returned true;
  copy := fun _ _ => Returned tt;
  emptyDir := fun _ => Returned tt;
  writeSearchIndex := fun _ => Returned tt;
  pluginInit := Returned tt;
  pluginModifyConfig := Returned config;
  pluginBeforeBuild := Returned tt;
  pluginAfterBuild := Returned tt
|}.

End Sample.

(** ** The statements compared with the code *)

Module Stated.
Import Build.

(** The suffix of the trailing-slash rule. *)
Definition html_suffix (path : string) : string :=
  if JS.endsWith path "/" then "index.html" else ".html".



(** A path cut at its slashes. *)
Fixpoint segments (s : string) : list string :=
  match s with
  | EmptyString => [EmptyString]
  | String c s' =>
      if Ascii.eqb c "/" then EmptyString :: segments s'
      else match segments s' with
           | [] => [String c EmptyString]
           | first :: rest => String c first :: rest
           end
  end.

Definition is_param (segment : string) : bool :=
  match segment with String ":" _ => true | _ => false end.

(** A route pattern made of static segments and [:name] parameters matches
    a pathname segment by segment, a parameter standing for any non-empty
    segment. *)
Definition segment_matches (pattern segment : string) : bool :=
  if is_param pattern then negb (String.eqb segment "") else String.eqb pattern segment.

Fixpoint segments_match (patterns parts : list string) : bool :=
  match patterns, parts with
  | [], [] => true
  | p :: patterns', s :: parts' => segment_matches p s && segments_match patterns' parts'
  | _, _ => false
  end.

Definition matches (pattern pathname : string) : bool :=
  segments_match (segments pattern) (segments pathname).

(** Route resolution in the words of the specification: the first entry of
    the table, in table order, that matches the normalised pathname is the
    one shown, and the empty placeholder when there is none. *)
Definition first_match_in_table_order (R : Content.Runtime) : Prop :=
  forall fallback pathname normalized,
    Content.normalizeRoutePath R pathname = Content.Returned normalized ->
    match List.find (fun r => matches (Content.path r) normalized) (Content.routes R) with
    | None => Content.Content R fallback pathname = Content.Returned Content.EmptyDiv
    | Some r =>
        exists rendered,
          Content.Content R fallback pathname = Content.Returned rendered
          /\ Content.shown rendered = Some (Content.element r)
    end.

(** [undefined] as [join] prints it. *)
Definition text (field : option string) : string :=
  match field with Some s => s | None => "" end.

(** A replacement template without a dollar sign. *)
Fixpoint dollar_free (s : string) : bool :=
  match s with
  | EmptyString => true
  | String c s' => negb (Ascii.eqb c "$") && dollar_free s'
  end.

End Stated.

(** ** Observations on runs *)

Module Observed.
Import Build.

(** Effects that involve the SSR bundle: building it, importing it, calling
    its [render]. *)
Definition touches_ssr (ev : Effect) : bool :=
  match ev with
  | ImportModule _ | SSRRender _ | InitRsbuild true _ | BuilderBuild true => true
  | _ => false
  end.

Definition is_warning (ev : Effect) : bool :=
  match ev with LogWarn _ => true | _ => false end.

Definition is_remove (ev : Effect) : bool :=
  match ev with FsRemove _ => true | _ => false end.

(** The steps of [bundle] before the public directory is looked at. *)
Definition builds_succeed (W : World) (enableSSG : bool) : Prop :=
  initRsbuild W false = Returned tt
  /\ builderBuild W false = Returned tt
  /\ (enableSSG = true ->
      initRsbuild W true = Returned tt /\ builderBuild W true = Returned tt).

Definition is_success (ev : Effect) : bool :=
  match ev with LogSuccess _ => true | _ => false end.

End Observed.

(** ** Worlds in which something fails *)

Module Scenario.
Import Build.

(** [W] with other answers for reading and writing files. *)
Definition with_files (W : World)
    (read : string -> Outcome string)
    (write : string -> string -> Outcome unit) : World := {|
  importSSR := importSSR W;
  getRoutes := getRoutes W;
  readFile := read;
  addSSGRoutes := addSSGRoutes W;
  ensureDir := ensureDir W;
  writeFile := write;
  remove := remove W;
  totalTime := totalTime W;
  initRsbuild := initRsbuild W;
  builderBuild := builderBuild W;
  pathExists := pathExists W;
  copy := copy W;
  emptyDir := emptyDir W;
  writeSearchIndex := writeSearchIndex W;
  pluginInit := pluginInit W;
  pluginModifyConfig := pluginModifyConfig W;
  pluginBeforeBuild := pluginBeforeBuild W;
  pluginAfterBuild := pluginAfterBuild W
|}.

Definition disk_full : Error := {| message := "ENOSPC"; stack := "Error: ENOSPC" |}.

(** The template cannot be read. *)
Definition unreadable_template : World :=
  with_files (Sample.world (Returned None))
             (fun _ => Threw disk_full) (fun _ _ => Returned tt).

(** The file of route [/docs/x] cannot be written. *)
Definition one_write_fails : World :=
  with_files (Sample.world (Returned None))
             (fun _ => Returned Sample.template)
             (fun file _ => if String.eqb file "/out/x.html" then Threw disk_full
                            else Returned tt).

(** A configuration with SSG switched off, while the plugins return
    [Sample.config], which leaves it on. *)
Definition no_ssg : UserConfig :=
  {| outDir := Some "/out"; base := Some "/docs"; head := None; ssg := Some false |}.

Definition attributes : HelmetServerState :=
  {| title := None; meta := None; link := None; style := None; script := None;
     htmlAttributes := Some "lang='en'"; bodyAttributes := Some "" |}.

(** The helmet state a page leaves when it sets a title and nothing else:
    every group is present, the others printing as nothing. *)
Definition titled : HelmetServerState :=
  {| title := Some "<title>T</title>"; meta := Some ""; link := Some "";
     style := Some ""; script := Some "";
     htmlAttributes := Some ""; bodyAttributes := Some "" |}.

(** A router that, like the router of the application, ranks the entries
    that match: one with more static segments goes before one with fewer,
    and table order decides between entries of equal rank. *)
Definition static_segments (pattern : string) : nat :=
  List.length (List.filter (fun segment => negb (Stated.is_param segment))
                           (Stated.segments pattern)).

Fixpoint best (candidates : list Content.RouteObject) (current : option Content.RouteObject)
  : option Content.RouteObject :=
  match candidates with
  | [] => current
  | r :: rest =>
      match current with
      | None => best rest (Some r)
      | Some c =>
          if (static_segments (Content.path c) <? static_segments (Content.path r))%nat
          then best rest (Some r)
          else best rest current
      end
  end.

Definition ranking_router (table : list Content.RouteObject) (location : string)
  : Content.Outcome (option (list Content.RouteMatch)) :=
  Content.Returned
    match best (List.filter (fun r => Stated.matches (Content.path r) location) table) None with
    | None => None
    | Some r => Some [ {| Content.route := r; Content.pathname_matched := location |} ]
    end.

(** A runtime whose table lists a parameter route before a static one; its
    [normalizeRoutePath] rejects an escape cut short and its hook hands back
    the element it was given on the previous render. *)
Definition ranked : Content.Runtime := {|
  Content.routes := [ {| Content.path := "/:id"; Content.element := 1 |};
                      {| Content.path := "/guide"; Content.element := 2 |} ];
  Content.matchRoutes := ranking_router;
  Content.normalizeRoutePath := fun pathname =>
    if JS.endsWith pathname "%" then Content.Threw (Content.Thrown "URIError")
    else Content.Returned pathname;
  Content.Memory := Content.ReactElement;
  Content.useViewTransition := fun previous e => (previous, e);
  Content.enableContentAnimation := true;
  Content.REACT_GTE_18 := true;
  Content.SSR := false
|}.


End Scenario.

(** * Properties *)

Import Build.

(** ** Strings *)

Section Strings.

Lemma append_nil_r (s : string) : s ++ "" = s.
Proof. induction s as [|c s IH]; simpl; [reflexivity | now rewrite IH]. Qed.

Lemma append_assoc (a b c : string) : (a ++ b) ++ c = a ++ b ++ c.
Proof. induction a as [|x a IH]; simpl; [reflexivity | now rewrite IH]. Qed.

Lemma length_append (a b : string) :
  String.length (a ++ b) = String.length a + String.length b.
Proof. induction a as [|x a IH]; simpl; [reflexivity | now rewrite IH]. Qed.

Lemma append_eq_self (a t : string) : a ++ t = t -> a = "".
Proof.
  intro H. apply (f_equal String.length) in H. rewrite length_append in H.
  destruct a; [reflexivity | simpl in H; lia].
Qed.

Lemma strip_prefix_append (pat s : string) : JS.strip_prefix pat (pat ++ s) = Some s.
Proof.
  induction pat as [|a pat IH]; simpl; [reflexivity|].
  now rewrite Ascii.eqb_refl.
Qed.

Lemma strip_prefix_sound (pat s rest : string) :
  JS.strip_prefix pat s = Some rest -> s = pat ++ rest.
Proof.
  revert s. induction pat as [|a pat IH]; intros s H; simpl in *.
  - now inversion H.
  - destruct s as [|b s]; [discriminate|].
    destruct (Ascii.eqb a b) eqn:E; [|discriminate].
    apply Ascii.eqb_eq in E. subst b. now rewrite (IH _ H).
Qed.

Lemma find_first_unfold (pat s : string) :
  JS.find_first pat s =
  match JS.strip_prefix pat s with
  | Some rest => Some ("", rest)
  | None =>
      match s with
      | "" => None
      | String c s' =>
          match JS.find_first pat s' with
          | Some (pre, post) => Some (String c pre, post)
          | None => None
          end
      end
  end.
Proof. destruct s; reflexivity. Qed.

(** The leftmost occurrence of a pattern the text starts with is at the front. *)
Lemma find_first_prefix (pat s : string) : JS.find_first pat (pat ++ s) = Some ("", s).
Proof. rewrite find_first_unfold. now rewrite strip_prefix_append. Qed.

Lemma find_first_sound (pat s pre post : string) :
  JS.find_first pat s = Some (pre, post) -> s = pre ++ pat ++ post.
Proof.
  revert pre post. induction s as [|c s IH]; intros pre post H;
    rewrite find_first_unfold in H.
  - destruct (JS.strip_prefix pat "") eqn:E; [|discriminate].
    inversion H; subst. now apply strip_prefix_sound in E.
  - destruct (JS.strip_prefix pat (String c s)) eqn:E.
    + inversion H; subst. now apply strip_prefix_sound in E.
    + destruct (JS.find_first pat s) as [[pre' post']|] eqn:F; [|discriminate].
      inversion H; subst. simpl. now rewrite (IH _ _ eq_refl).
Qed.



(** Replacing by the empty template removes the first occurrence. *)
Lemma replace_empty (s pat : string) :
  JS.replace s pat "" =
  match JS.find_first pat s with Some (pre, post) => pre ++ post | None => s end.
Proof. unfold JS.replace. now destruct (JS.find_first pat s) as [[pre post]|]. Qed.

Lemma replace_empty_prefix (pat rest : string) : JS.replace (pat ++ rest) pat "" = rest.
Proof. now rewrite replace_empty, find_first_prefix. Qed.

End Strings.

Example replace_expands_the_template : JS.replace "a<M>b" "<M>" "x$&y" = "ax<M>yb".
Proof. reflexivity. Qed.

Example replace_fn_inserts_the_result :
  JS.replace_fn "a<M>b" "<M>" (fun _ => "x$&y") = "ax$&yb".
Proof. reflexivity. Qed.

Example replace_other_patterns : JS.replace "a<M>b" "<M>" "$$1$`$'$1$<$" = "a$1ab$1$<$b".
Proof. reflexivity. Qed.

Example replace_first_occurrence_only : JS.replace "/docs/docs/x" "/docs" "" = "/docs/x".
Proof. reflexivity. Qed.

Example replace_empty_pattern : JS.replace "/guide.html" "" "" = "/guide.html".
Proof. reflexivity. Qed.

Example endsWith_slash :
  JS.endsWith "/docs/guide/" "/" = true
  /\ JS.endsWith "/docs/guide" "/" = false
  /\ JS.endsWith "" "/" = false.
Proof. repeat split. Qed.

Example join_skips_undefined : JS.join_empty [Some "a"; None; Some "b"; None] = "ab".
Proof. reflexivity. Qed.

(** ** Output path derivation *)

Section OutputPath.
Import Stated.
Variable D : Deps.

Lemma normalizeHtmlFilePath_replace (config : UserConfig) (path : string) :
  normalizeHtmlFilePath D config path =
  JS.replace (path ++ html_suffix path)
             (normalizeSlash D (JS.or_else (base config) "/")) "".
Proof.
  unfold normalizeHtmlFilePath, html_suffix.
  now destruct (JS.endsWith path "/").
Qed.

End OutputPath.

Example file_names_under_docs :
  normalizeHtmlFilePath Sample.deps Sample.config "/docs/guide" = "/guide.html"
  /\ normalizeHtmlFilePath Sample.deps Sample.config "/docs/guide/" = "/guide/index.html"
  /\ normalizeHtmlFilePath Sample.deps Sample.config "/a/docs/b" = "/a/b.html".
Proof. repeat split. Qed.

(** ** Marker substitution *)

Section Markers.
Import Stated.
Variable D : Deps.

Lemma dollar_free_append (a b : string) :
  dollar_free (a ++ b) = dollar_free a && dollar_free b.
Proof.
  induction a as [|c a IH]; simpl; [reflexivity|].
  now rewrite IH, andb_assoc.
Qed.

(** A template without a dollar sign is inserted as it is. *)
Lemma GetSubstitution_dollar_free (matched before after template : string) :
  dollar_free template = true ->
  JS.GetSubstitution matched before after template = template.
Proof.
  induction template as [|c t IH]; simpl; [reflexivity|].
  intro H. apply andb_prop in H as [Hc Ht].
  apply negb_true_iff in Hc. rewrite Hc. now rewrite (IH Ht).
Qed.

Lemma replace_dollar_free (s pat template pre post : string) :
  JS.find_first pat s = Some (pre, post) ->
  dollar_free template = true ->
  JS.replace s pat template = pre ++ template ++ post.
Proof.
  intros F H. unfold JS.replace. rewrite F.
  now rewrite GetSubstitution_dollar_free.
Qed.

Lemma CHECK_DARK_LIGHT_SCRIPT_dollar_free :
  dollar_free (CHECK_DARK_LIGHT_SCRIPT D) = dollar_free (APPEARANCE_KEY D).
Proof.
  unfold CHECK_DARK_LIGHT_SCRIPT. simpl.
  rewrite dollar_free_append. simpl. apply andb_true_r.
Qed.

Lemma join_empty_app (xs ys : list (option string)) :
  JS.join_empty (xs ++ ys) = JS.join_empty xs ++ JS.join_empty ys.
Proof.
  induction xs as [|[x|] xs IH]; simpl; [reflexivity| |exact IH].
  now rewrite IH, append_assoc.
Qed.

Lemma join_empty_defined (xs : list string) :
  JS.join_empty (List.map Some xs) = String.concat "" xs.
Proof.
  induction xs as [|x xs IH]; simpl; [reflexivity|].
  rewrite IH. destruct xs; simpl; [now rewrite append_nil_r | reflexivity].
Qed.

(** The replacement of the head marker: the configured entries, then the
    five helmet groups with [undefined] printed as nothing, then the
    theme-detection script. *)
Lemma head_replacement_text (config : UserConfig) (helmet : option HelmetServerState) :
  head_replacement D config helmet =
  String.concat "" (JS.nullish (head config) [])
  ++ text (helmet_field helmet title)
  ++ text (helmet_field helmet meta)
  ++ text (helmet_field helmet link)
  ++ text (helmet_field helmet style)
  ++ text (helmet_field helmet script)
  ++ CHECK_DARK_LIGHT_SCRIPT D.
Proof.
  unfold head_replacement, head_parts.
  rewrite join_empty_app, join_empty_defined. f_equal.
  destruct (helmet_field helmet title), (helmet_field helmet meta),
    (helmet_field helmet link), (helmet_field helmet style),
    (helmet_field helmet script); simpl; now rewrite ?append_nil_r.
Qed.

End Markers.

(** ** The asynchronous combinators *)

Section Combinators.

Lemma try_finally_trace (A : Type) (body : Async A) (ev : Effect) (answer : Outcome unit) :
  trace (try_finally body (call ev answer)) = (trace body ++ [ev])%list.
Proof. destruct body as [t r], answer; reflexivity. Qed.

Lemma try_finally_outcome (A : Type) (body : Async A) (ev : Effect) :
  outcome (try_finally body (call ev (Returned tt))) = outcome body.
Proof. destruct body as [t r]; reflexivity. Qed.

(** Every task handed to [Promise.all] runs, whatever the others do. *)
Lemma all_trace (A B : Type) (f : A -> Async B) (l : list A) :
  trace (all (List.map f l)) = List.flat_map (fun a => trace (f a)) l.
Proof.
  induction l as [|a l IH]; simpl; [reflexivity|].
  destruct (f a) as [t r] eqn:E. destruct (all (List.map f l)) as [t' rs].
  simpl in *. now rewrite IH.
Qed.

Lemma all_returned (A B : Type) (f : A -> Async B) (l : list A) :
  (forall a, In a l -> exists b, outcome (f a) = Returned b) ->
  exists bs, outcome (all (List.map f l)) = Returned bs.
Proof.
  induction l as [|a l IH]; intro H; simpl.
  - now exists [].
  - destruct (H a (or_introl eq_refl)) as [b Hb].
    destruct IH as [bs Hbs]; [intros; apply H; now right|].
    destruct (f a) as [t r]. destruct (all (List.map f l)) as [t' rs].
    simpl in *. subst. now exists (b :: bs).
Qed.


Lemma writes_app (t t' : list Effect) : writes (t ++ t') = (writes t ++ writes t')%list.
Proof. induction t as [|[] t IH]; simpl; now rewrite ?IH. Qed.

Lemma warnings_app (t t' : list Effect) :
  warnings (t ++ t') = (warnings t ++ warnings t')%list.
Proof. induction t as [|[] t IH]; simpl; now rewrite ?IH. Qed.

Lemma renders_app (t t' : list Effect) : renders (t ++ t') = (renders t ++ renders t')%list.
Proof. induction t as [|[] t IH]; simpl; now rewrite ?IH. Qed.

Lemma writes_cons (ev : Effect) (t : list Effect) :
  writes (ev :: t) = (writes [ev] ++ writes t)%list.
Proof. now destruct ev. Qed.

Lemma warnings_cons (ev : Effect) (t : list Effect) :
  warnings (ev :: t) = (warnings [ev] ++ warnings t)%list.
Proof. now destruct ev. Qed.

Lemma renders_cons (ev : Effect) (t : list Effect) :
  renders (ev :: t) = (renders [ev] ++ renders t)%list.
Proof. now destruct ev. Qed.

Lemma writes_flat_map (A : Type) (f : A -> list Effect) (l : list A) :
  writes (List.flat_map f l) = List.flat_map (fun a => writes (f a)) l.
Proof. induction l as [|a l IH]; simpl; [reflexivity|]. now rewrite writes_app, IH. Qed.

Lemma warnings_flat_map (A : Type) (f : A -> list Effect) (l : list A) :
  warnings (List.flat_map f l) = List.flat_map (fun a => warnings (f a)) l.
Proof. induction l as [|a l IH]; simpl; [reflexivity|]. now rewrite warnings_app, IH. Qed.

Lemma renders_flat_map (A : Type) (f : A -> list Effect) (l : list A) :
  renders (List.flat_map f l) = List.flat_map (fun a => renders (f a)) l.
Proof. induction l as [|a l IH]; simpl; [reflexivity|]. now rewrite renders_app, IH. Qed.

Lemma flat_map_singleton (A B : Type) (f : A -> list B) (g : A -> B) (l : list A) :
  (forall a, In a l -> f a = [g a]) -> List.flat_map f l = List.map g l.
Proof.
  induction l as [|a l IH]; intro H; simpl; [reflexivity|].
  rewrite (H a (or_introl eq_refl)), IH; [reflexivity|].
  intros; apply H; now right.
Qed.

Lemma flat_map_empty (A B : Type) (f : A -> list B) (l : list A) :
  (forall a, In a l -> f a = []) -> List.flat_map f l = [].
Proof.
  induction l as [|a l IH]; intro H; simpl; [reflexivity|].
  rewrite (H a (or_introl eq_refl)), IH; [reflexivity|].
  intros; apply H; now right.
Qed.

End Combinators.

(** ** The page renderer *)

Section PerRoute.
Variables (D : Deps) (W : World) (config : UserConfig).
Variables (outputPath htmlTemplate : string) (render : option RenderFn).

(** What one run of the per-route callback does, whatever the world answers. *)
Lemma renderPage_run (route : Route) :
  renderPage D W config outputPath htmlTemplate render route =
  ((attempt_events render (routePath route) ++
    FsEnsureDir (page_dir D config outputPath route) ::
    match ensureDir W (page_dir D config outputPath route) with
    | Returned _ => [FsWriteFile (page_file D config outputPath route)
                                 (page_data D config htmlTemplate render route)]
    | Threw _ => []
    end)%list,
   match ensureDir W (page_dir D config outputPath route) with
   | Returned _ => writeFile W (page_file D config outputPath route)
                             (page_data D config htmlTemplate render route)
   | Threw e => Threw e
   end).
Proof.
  unfold renderPage, page_data, page_dir, page_file, appHtml_for, helmet_for, attempt_events.
  destruct render as [f|]; [destruct (resolved (f (routePath route))) as [a|e]|];
    simpl; destruct (ensureDir W _) as [[]|e']; reflexivity.
Qed.

Lemma renderPage_returned (route : Route) (u : unit) :
  outcome (renderPage D W config outputPath htmlTemplate render route) = Returned u ->
  trace (renderPage D W config outputPath htmlTemplate render route) =
  (attempt_events render (routePath route) ++
   [FsEnsureDir (page_dir D config outputPath route);
    FsWriteFile (page_file D config outputPath route)
                (page_data D config htmlTemplate render route)])%list.
Proof.
  rewrite renderPage_run. unfold outcome, trace. simpl.
  now destruct (ensureDir W _).
Qed.

Lemma attempt_events_writes (p : string) : writes (attempt_events render p) = [].
Proof.
  unfold attempt_events. destruct render as [f|]; [|reflexivity].
  simpl. now destruct (resolved (f p)).
Qed.

Lemma renderPage_writes (route : Route) (u : unit) :
  outcome (renderPage D W config outputPath htmlTemplate render route) = Returned u ->
  writes (trace (renderPage D W config outputPath htmlTemplate render route)) =
  [(page_file D config outputPath route, page_data D config htmlTemplate render route)].
Proof.
  intro H. rewrite (renderPage_returned _ H), writes_app, attempt_events_writes.
  reflexivity.
Qed.

Lemma renderPage_succeeds (route : Route) :
  ensureDir W (page_dir D config outputPath route) = Returned tt ->
  writeFile W (page_file D config outputPath route)
              (page_data D config htmlTemplate render route) = Returned tt ->
  outcome (renderPage D W config outputPath htmlTemplate render route) = Returned tt.
Proof. intros He Hw. rewrite renderPage_run. unfold outcome. simpl. now rewrite He. Qed.

End PerRoute.

Section RenderPages.
Variables (D : Deps) (W : World) (appDirectory : string) (config : UserConfig).
Variable enableSSG : bool.

Let outputPath := outputPath_of D appDirectory config.
Let render := render_of D W appDirectory config enableSSG.

Lemma all_run (A B : Type) (f : A -> Async B) (l : list A) :
  (forall a, In a l -> exists b, outcome (f a) = Returned b) ->
  exists bs, all (List.map f l) = (List.flat_map (fun a => trace (f a)) l, Returned bs).
Proof.
  intro H. destruct (all_returned f l H) as [bs Hbs]. exists bs.
  rewrite <- all_trace, <- Hbs. now destruct (all (List.map f l)).
Qed.

(** A run of [renderPages] in which the template is read, the plugin routes
    are obtained, every page callback resolves and the two intermediate
    directories are removed. *)
Lemma renderPages_run (htmlTemplate : string) (extra : list AdditionalRoute) :
  readFile W (htmlTemplatePath_of D appDirectory config) = Returned htmlTemplate ->
  addSSGRoutes W = Returned extra ->
  (forall r, In r (staticRoutes D W config extra) ->
     outcome (renderPage D W config outputPath htmlTemplate render r) = Returned tt) ->
  remove W (join D [outputPath; "ssr"]) = Returned tt ->
  remove W (join D [outputPath; "html"]) = Returned tt ->
  renderPages D W appDirectory config enableSSG =
  ((LogInfo "Rendering pages..." ::
    load_events D W appDirectory config enableSSG ++
    [GetRoutes; FsReadFile (htmlTemplatePath_of D appDirectory config); PluginAddSSGRoutes] ++
    List.flat_map (fun r => trace (renderPage D W config outputPath htmlTemplate render r))
                  (staticRoutes D W config extra) ++
    [FsRemove (join D [outputPath; "ssr"]); FsRemove (join D [outputPath; "html"]);
     LogSuccess ("Pages rendered in " ++ totalTime W ++ " ms.")])%list,
   Returned tt).
Proof.
  intros Hread Hextra Hpages Hssr Hhtml.
  destruct (@all_run _ _ (renderPage D W config outputPath htmlTemplate render)
              (staticRoutes D W config extra)) as [bs Hall].
  { intros r Hr. exists tt. now apply Hpages. }
  unfold renderPages, load_events.
  subst render outputPath. unfold render_of in *.
  destruct enableSSG.
  - destruct (importSSR W _) as [r|e]; simpl;
      rewrite Hread, Hextra; simpl; rewrite Hall; simpl;
      rewrite Hssr, Hhtml; simpl; rewrite <- ?app_assoc; reflexivity.
  - simpl. rewrite Hread, Hextra; simpl; rewrite Hall; simpl.
    rewrite Hssr, Hhtml; simpl; rewrite <- ?app_assoc; reflexivity.
Qed.

Lemma load_events_writes : writes (load_events D W appDirectory config enableSSG) = [].
Proof.
  unfold load_events. destruct enableSSG; [|reflexivity].
  simpl. now destruct (importSSR W _).
Qed.

(** The files written by such a run: one per static route, in order. *)
Lemma renderPages_run_writes (htmlTemplate : string) (extra : list AdditionalRoute) :
  readFile W (htmlTemplatePath_of D appDirectory config) = Returned htmlTemplate ->
  addSSGRoutes W = Returned extra ->
  (forall r, In r (staticRoutes D W config extra) ->
     outcome (renderPage D W config outputPath htmlTemplate render r) = Returned tt) ->
  remove W (join D [outputPath; "ssr"]) = Returned tt ->
  remove W (join D [outputPath; "html"]) = Returned tt ->
  writes (trace (renderPages D W appDirectory config enableSSG)) =
  List.map (fun r => (page_file D config outputPath r,
                      page_data D config htmlTemplate render r))
           (staticRoutes D W config extra).
Proof.
  intros Hread Hextra Hpages Hssr Hhtml.
  rewrite (renderPages_run Hread Hextra Hpages Hssr Hhtml).
  unfold trace. cbn [fst]. rewrite writes_cons, !writes_app, writes_flat_map.
  rewrite load_events_writes. cbn [writes app]. rewrite app_nil_r.
  apply flat_map_singleton. intros r Hr.
  apply renderPage_writes with (u := tt). now apply Hpages.
Qed.

End RenderPages.

Section RenderPagesSuccess.
Variables (D : Deps) (W : World) (appDirectory : string) (config : UserConfig).
Variable enableSSG : bool.

Let outputPath := outputPath_of D appDirectory config.
Let render := render_of D W appDirectory config enableSSG.


End RenderPagesSuccess.

(** ** Falling back to client-side rendering *)

Section Fallback.
Variables (D : Deps) (W : World) (appDirectory : string) (config : UserConfig).
Variables (htmlTemplate : string) (extra : list AdditionalRoute).

Let outputPath := outputPath_of D appDirectory config.
Let ssrBundle := pathToFileURL D (ssrBundlePath_of D appDirectory config).

(** The file system and the plugin driver answer every call. *)
Hypothesis template_read :
  readFile W (htmlTemplatePath_of D appDirectory config) = Returned htmlTemplate.
Hypothesis plugin_routes : addSSGRoutes W = Returned extra.
Hypothesis ensureDir_ok : forall dir, ensureDir W dir = Returned tt.
Hypothesis writeFile_ok : forall file data, writeFile W file data = Returned tt.
Hypothesis remove_ok : forall dir, remove W dir = Returned tt.

Lemma renderPages_trace (enableSSG : bool) :
  renderPages D W appDirectory config enableSSG =
  ((LogInfo "Rendering pages..." ::
    load_events D W appDirectory config enableSSG ++
    [GetRoutes; FsReadFile (htmlTemplatePath_of D appDirectory config); PluginAddSSGRoutes] ++
    List.flat_map
      (fun r => trace (renderPage D W config outputPath htmlTemplate
                         (render_of D W appDirectory config enableSSG) r))
      (staticRoutes D W config extra) ++
    [FsRemove (join D [outputPath; "ssr"]); FsRemove (join D [outputPath; "html"]);
     LogSuccess ("Pages rendered in " ++ totalTime W ++ " ms.")])%list,
   Returned tt).
Proof.
  apply renderPages_run; auto.
  intros r _. now apply renderPage_succeeds.
Qed.

Lemma renderPage_trace (render : option RenderFn) (route : Route) :
  trace (renderPage D W config outputPath htmlTemplate render route) =
  (attempt_events render (routePath route) ++
   [FsEnsureDir (page_dir D config outputPath route);
    FsWriteFile (page_file D config outputPath route)
                (page_data D config htmlTemplate render route)])%list.
Proof. apply renderPage_returned with (u := tt). now apply renderPage_succeeds. Qed.

Lemma renderPages_writes (enableSSG : bool) :
  writes (trace (renderPages D W appDirectory config enableSSG)) =
  List.map (fun r => (page_file D config outputPath r,
                      page_data D config htmlTemplate
                                (render_of D W appDirectory config enableSSG) r))
           (staticRoutes D W config extra).
Proof.
  apply renderPages_run_writes; auto.
  intros r _. now apply renderPage_succeeds.
Qed.

Lemma attempt_events_absent (p : string) : attempt_events None p = [].
Proof. reflexivity. Qed.

(** C10 (as amended): every undefined helmet field is printed as nothing in
    the head replacement, so that without helmet data it is the configured
    head entries followed by the theme-detection script; a route rendered
    without a render function is written with no helmet data; a route whose
    [render] rejected is written from an empty app fragment and from
    whatever helmet data [render] left in the context. *)
Theorem csr_fallback_head_replacement (route : Route) :
  head_replacement D config None =
    String.concat "" (JS.nullish (head config) []) ++ CHECK_DARK_LIGHT_SCRIPT D
  /\ (forall helmet,
        head_replacement D config helmet =
        String.concat "" (JS.nullish (head config) [])
        ++ Stated.text (helmet_field helmet title)
        ++ Stated.text (helmet_field helmet meta)
        ++ Stated.text (helmet_field helmet link)
        ++ Stated.text (helmet_field helmet style)
        ++ Stated.text (helmet_field helmet script)
        ++ CHECK_DARK_LIGHT_SCRIPT D)
  /\ writes (trace (renderPage D W config outputPath htmlTemplate None route)) =
     [(page_file D config outputPath route, html D config htmlTemplate "" None)]
  /\ (forall (f : RenderFn) (e : Error),
        resolved (f (routePath route)) = Threw e ->
        writes (trace (renderPage D W config outputPath htmlTemplate (Some f) route)) =
        [(page_file D config outputPath route,
          html D config htmlTemplate "" (context_helmet (f (routePath route))))]).
Proof.
  split; [now rewrite head_replacement_text|].
  split; [intro helmet; apply head_replacement_text|].
  split.
  - rewrite renderPage_trace. reflexivity.
  - intros f e Hthrow. rewrite renderPage_trace, writes_app, attempt_events_writes.
    unfold page_data, appHtml_for, helmet_for. now rewrite Hthrow.
Qed.

End Fallback.

Lemma csr_fallback_head_replacement_witness :
  writes (trace (renderPage Sample.deps (Sample.world (Threw Sample.boom)) Sample.config
                            "/out" Sample.template (Some Sample.late_failure)
                            {| routePath := "/docs/x" |})) =
  [("/out/x.html",
    html Sample.deps Sample.config Sample.template ""
         (context_helmet (Sample.late_failure "/docs/x")))].
Proof.
  refine (proj2 (proj2 (proj2
    (@csr_fallback_head_replacement Sample.deps (Sample.world (Threw Sample.boom))
       "/app" Sample.config Sample.template
       (fun _ => eq_refl) (fun _ _ => eq_refl) {| routePath := "/docs/x" |})))
    Sample.late_failure Sample.boom eq_refl).
Defined.

(** C10 (as stated) fails: a [render] that rejects after the helmet provider
    has stored its state in the context leaves helmet data behind, and the
    page written for the route carries it. *)
Lemma rejected_render_keeps_helmet_data :
  ~ (forall (D : Deps) (W : World) (config : UserConfig)
            (outputPath htmlTemplate : string) (f : RenderFn) (route : Route) (e : Error),
        resolved (f (routePath route)) = Threw e ->
        writes (trace (renderPage D W config outputPath htmlTemplate (Some f) route)) =
        [(page_file D config outputPath route, html D config htmlTemplate "" None)]).
Proof.
  intro H.
  specialize (H Sample.deps (Sample.world (Threw Sample.boom)) Sample.config "/out"
                Sample.template Sample.late_failure {| routePath := "/docs/x" |}
                Sample.boom eq_refl).
  vm_compute in H. discriminate H.
Qed.

(** ** Replacement strings and replacement callbacks *)

(** C1: only the app marker is replaced through a callback.  The head marker
    is replaced with a string, which the substitution engine expands: a
    [$&] in a configured head entry comes out as the head marker itself,
    while the same text in the rendered fragment is kept as it is. *)
Theorem head_replacement_is_expanded :
  (forall pat post, JS.replace (pat ++ post) pat "$&" = pat ++ post)
  /\ (forall pat post appHtml,
        JS.replace_fn (pat ++ post) pat (fun _ => appHtml) = appHtml ++ post)
  /\ html Sample.deps
          {| outDir := None; base := None;
             head := Some ["<meta name='price' content='US$&'>"]; ssg := None |}
          Sample.template "<p>US$&</p>" None =
     "<html><head><meta name='price' content='US<!--<?- HEAD ?>-->'>"
     ++ CHECK_DARK_LIGHT_SCRIPT Sample.deps
     ++ "</head><body><div id='root'><p>US$&</p></div></body></html>".
Proof.
  split; [|split].
  - intros pat post. unfold JS.replace. rewrite find_first_prefix. simpl.
    now rewrite append_nil_r.
  - intros pat post appHtml. unfold JS.replace_fn. now rewrite find_first_prefix.
  - reflexivity.
Qed.

(** ** bundle *)

Section Bundle.
Variables (D : Deps) (W : World) (docDirectory : string) (config : UserConfig).

Lemma bundling_never_writes_the_index (enableSSG : bool) :
  List.filter is_WriteSearchIndex (trace (bundling D W docDirectory config enableSSG)) = [].
Proof.
  unfold bundling.
  destruct enableSSG; simpl;
    destruct (initRsbuild W false) as [[]|?]; simpl;
    try (destruct (initRsbuild W true) as [[]|?]; simpl);
    try (destruct (builderBuild W false) as [[]|?]; simpl);
    try (destruct (builderBuild W true) as [[]|?]; simpl);
    try (destruct (pathExists W _) as [[|]|?]; simpl);
    try (destruct (copy W _ _) as [[]|?]; simpl);
    reflexivity.
Qed.

(** C7: whatever the bundling steps do, the last effect of [bundle] is the
    one call of [writeSearchIndex], made after the effects of the [try]
    block; [bundle] then ends the way the [try] block ended (normally or
    with its error), unless writing the index itself fails. *)
Theorem writeSearchIndex_on_every_exit (enableSSG : bool) :
  trace (bundle D W docDirectory config enableSSG) =
    (trace (bundling D W docDirectory config enableSSG) ++ [WriteSearchIndex])%list
  /\ List.filter is_WriteSearchIndex (trace (bundle D W docDirectory config enableSSG)) =
     [WriteSearchIndex]
  /\ outcome (bundle D W docDirectory config enableSSG) =
     match writeSearchIndex W config with
     | Returned _ => outcome (bundling D W docDirectory config enableSSG)
     | Threw e => Threw e
     end.
Proof.
  unfold bundle. split; [apply try_finally_trace|]. split.
  - rewrite try_finally_trace, filter_app, bundling_never_writes_the_index. reflexivity.
  - destruct (bundling D W docDirectory config enableSSG) as [t r].
    now destruct (writeSearchIndex W config).
Qed.

End Bundle.

Example bundle_when_the_ssr_build_fails :
  bundle Sample.deps (Sample.world (Threw Sample.boom)) "/docs" Sample.config true =
  ([InitRsbuild false None; InitRsbuild true (Some "/out/ssr");
    BuilderBuild false; BuilderBuild true; WriteSearchIndex],
   Threw Sample.boom).
Proof. reflexivity. Qed.

(** ** build *)

Section Pipeline.
Variables (D : Deps) (W : World) (docDirectory appDirectory : string) (config : UserConfig).

(** A build that succeeds has rendered the pages, with the configuration
    returned by the plugins and the SSG flag of the original one. *)
Lemma build_returned_inv (u : unit) :
  outcome (build D W docDirectory appDirectory config) = Returned u ->
  exists modifiedConfig,
    pluginModifyConfig W = Returned modifiedConfig
    /\ outcome (bundle D W docDirectory modifiedConfig (JS.nullish (ssg config) true)) =
       Returned tt
    /\ outcome (renderPages D W appDirectory modifiedConfig (JS.nullish (ssg config) true)) =
       Returned tt.
Proof.
  unfold build, outcome.
  destruct (pluginInit W) as [[]|?]; simpl; [|discriminate].
  destruct (pluginModifyConfig W) as [modifiedConfig|?]; simpl; [|discriminate].
  destruct (pluginBeforeBuild W) as [[]|?]; simpl; [|discriminate].
  destruct (emptyDir W _) as [[]|?]; simpl; [|discriminate].
  destruct (bundle D W docDirectory modifiedConfig _) as [t [[]|?]] eqn:Hbundle; simpl;
    [|discriminate].
  destruct (renderPages D W appDirectory modifiedConfig _) as [t' [[]|?]] eqn:Hrender; simpl;
    [|discriminate].
  intros _. exists modifiedConfig. now rewrite Hbundle, Hrender.
Qed.

End Pipeline.

(** * Further properties of the code *)

(** ** Properties of every effect of a run *)

Section TraceForall.
Variable P : Effect -> Prop.

Lemma ret_Forall (A : Type) (a : A) : Forall P (trace (ret a)).
Proof. constructor. Qed.

Lemma call_Forall (A : Type) (ev : Effect) (answer : Outcome A) :
  P ev -> Forall P (trace (call ev answer)).
Proof. intro H. repeat constructor. exact H. Qed.

Lemma emit_Forall (ev : Effect) : P ev -> Forall P (trace (emit ev)).
Proof. intro H. repeat constructor. exact H. Qed.

Lemma bind_Forall (A B : Type) (m : Async A) (k : A -> Async B) :
  Forall P (trace m) -> (forall a, Forall P (trace (k a))) ->
  Forall P (trace (bind m k)).
Proof.
  destruct m as [t [a|e]]; intros Hm Hk; unfold bind; [|exact Hm].
  specialize (Hk a). destruct (k a) as [t' r]. apply Forall_app. now split.
Qed.

Lemma bind_Forall_returned (A B : Type) (m : Async A) (k : A -> Async B) :
  Forall P (trace m) -> (forall a, outcome m = Returned a -> Forall P (trace (k a))) ->
  Forall P (trace (bind m k)).
Proof.
  destruct m as [t [a|e]]; intros Hm Hk; unfold bind; [|exact Hm].
  specialize (Hk a eq_refl). destruct (k a) as [t' r]. apply Forall_app. now split.
Qed.

Lemma try_catch_Forall (A : Type) (body : Async A) (handler : Error -> Async A) :
  Forall P (trace body) -> (forall e, Forall P (trace (handler e))) ->
  Forall P (trace (try_catch body handler)).
Proof.
  destruct body as [t [a|e]]; intros Hb Hh; unfold try_catch; [exact Hb|].
  specialize (Hh e). destruct (handler e) as [t' r]. apply Forall_app. now split.
Qed.

Lemma try_finally_Forall (A : Type) (body : Async A) (fin : Async unit) :
  Forall P (trace body) -> Forall P (trace fin) ->
  Forall P (trace (try_finally body fin)).
Proof.
  destruct body as [t r], fin as [t' [u|e]]; intros Hb Hf; apply Forall_app; now split.
Qed.

Lemma all_Forall (A : Type) (tasks : list (Async A)) :
  (forall task, In task tasks -> Forall P (trace task)) ->
  Forall P (trace (all tasks)).
Proof.
  induction tasks as [|[t r] tasks IH]; intro H; [constructor|].
  simpl. destruct (all tasks) as [t' rs]. apply Forall_app. split.
  - exact (H (t, r) (or_introl eq_refl)).
  - apply IH. intros task Hin. apply H. now right.
Qed.

End TraceForall.

Ltac trace_forall :=
  repeat first
    [ apply ret_Forall
    | apply call_Forall
    | apply emit_Forall
    | apply bind_Forall; [|intro]
    | apply try_catch_Forall; [|intro]
    | apply try_finally_Forall
    | apply all_Forall; intros ? ? ].

(** ** bundle *)

Section BundleSteps.
Import Observed.
Variables (D : Deps) (W : World) (docDirectory : string) (config : UserConfig).

Let outputDir := JS.nullish (outDir config) (OUTPUT_DIR D).
Let publicDir := join D [docDirectory; PUBLIC_DIR D].

(** X3: with SSG disabled, [bundle] neither initialises nor builds an SSR
    bundle, whatever the bundling steps answer. *)
Theorem bundle_without_ssg_builds_client_only :
  Forall (fun ev => touches_ssr ev = false)
         (trace (bundle D W docDirectory config false)).
Proof.
  unfold bundle, bundling. apply try_finally_Forall; [|now apply call_Forall].
  apply bind_Forall.
  - apply bind_Forall; [now apply call_Forall | intros _; now apply call_Forall].
  - intros _. apply bind_Forall; [now apply call_Forall | intros [|]].
    + now apply call_Forall.
    + apply ret_Forall.
Qed.

(** X4: with SSG enabled both builders are initialised, the SSR one with
    its output under [ssr] in the output directory, also when the other
    initialisation fails; a build is started only if both initialisations
    succeeded, and then both builds are started. *)
Theorem bundle_with_ssg_initialises_both :
  (exists rest,
      trace (bundle D W docDirectory config true) =
      InitRsbuild false None :: InitRsbuild true (Some (outputDir ++ "/ssr")) :: rest)
  /\ (forall isSSR,
        In (BuilderBuild isSSR) (trace (bundle D W docDirectory config true)) <->
        initRsbuild W false = Returned tt /\ initRsbuild W true = Returned tt).
Proof.
  subst outputDir. unfold bundle, bundling, try_finally, trace. simpl.
  destruct (initRsbuild W false) as [[]|e1], (initRsbuild W true) as [[]|e2]; simpl;
    try solve
      [ split;
        [ eexists; destruct (writeSearchIndex W config); reflexivity
        | intro isSSR; destruct (writeSearchIndex W config); simpl;
          (split; [intros [H|[H|[H|[]]]]; discriminate H | intros [H1 H2]; discriminate]) ] ].
  destruct (builderBuild W false) as [[]|e3], (builderBuild W true) as [[]|e4]; simpl;
    try (destruct (pathExists W _) as [[|]|e5]; simpl);
    try (destruct (copy W _ _) as [[]|e6]; simpl);
    destruct (writeSearchIndex W config); simpl;
    (split; [eexists; reflexivity|]);
    intro isSSR; (split; [auto|]); intros _; destruct isSSR; simpl; auto 10.
Qed.

(** X5: the public directory is copied, to the output directory, exactly
    when every builder step succeeded and the directory exists; nothing else
    is ever copied. *)
Theorem bundle_copies_public_dir (enableSSG : bool) (src dest : string) :
  In (FsCopy src dest) (trace (bundle D W docDirectory config enableSSG)) <->
  src = publicDir /\ dest = outputDir
  /\ builds_succeed W enableSSG /\ pathExists W publicDir = Returned true.
Proof.
  subst outputDir publicDir. unfold builds_succeed.
  unfold bundle, bundling, try_finally, trace.
  destruct enableSSG; simpl;
    destruct (initRsbuild W false) as [[]|e1]; simpl;
    try (destruct (initRsbuild W true) as [[]|e2]; simpl);
    try (destruct (builderBuild W false) as [[]|e3]; simpl);
    try (destruct (builderBuild W true) as [[]|e4]; simpl);
    try (destruct (pathExists W _) as [[|]|e5]; simpl);
    try (destruct (copy W _ _) as [[]|e6]; simpl);
    destruct (writeSearchIndex W config); simpl;
    (split;
     [ intro H; repeat (destruct H as [H|H]; try discriminate H);
       try contradiction; try (injection H as <- <-; repeat split; auto; discriminate)
     | intros (-> & -> & (H1 & H2 & H3) & H4);
       try discriminate;
       try (destruct (H3 eq_refl) as [H5 H6]; discriminate);
       auto 10 ]).
Qed.

(** X6: [bundle] resolves exactly when every builder step succeeded, the
    look-up of the public directory answered, the copy (if there is
    something to copy) succeeded and the search index was written. *)
Theorem bundle_resolves_iff (enableSSG : bool) :
  outcome (bundle D W docDirectory config enableSSG) = Returned tt <->
  builds_succeed W enableSSG
  /\ (exists found, pathExists W publicDir = Returned found
                    /\ (found = true -> copy W publicDir outputDir = Returned tt))
  /\ writeSearchIndex W config = Returned tt.
Proof.
  subst outputDir publicDir. unfold builds_succeed.
  unfold bundle, bundling, try_finally, outcome.
  destruct enableSSG; simpl;
    destruct (initRsbuild W false) as [[]|e1]; simpl;
    try (destruct (initRsbuild W true) as [[]|e2]; simpl);
    try (destruct (builderBuild W false) as [[]|e3]; simpl);
    try (destruct (builderBuild W true) as [[]|e4]; simpl);
    try (destruct (pathExists W _) as [[|]|e5]; simpl);
    try (destruct (copy W _ _) as [[]|e6]; simpl);
    destruct (writeSearchIndex W config) as [[]|e7]; simpl;
    (split;
     [ intro H; try discriminate H;
       repeat split; auto; try discriminate;
       try (eexists; split; [reflexivity|]; intro; auto; discriminate)
     | intros ((H1 & H2 & H3) & (found & H4 & H5) & H6);
       try discriminate;
       try (destruct (H3 eq_refl) as [H7 H8]; discriminate);
       try (injection H4 as <-; specialize (H5 eq_refl); discriminate);
       auto ]).
Qed.

End BundleSteps.

(** ** renderPages: fatal errors *)

Section Fatal.
Import Observed.
Variables (D : Deps) (W : World) (appDirectory : string) (config : UserConfig).
Variable enableSSG : bool.

Let outputPath := outputPath_of D appDirectory config.
Let render := render_of D W appDirectory config enableSSG.
Let templatePath := htmlTemplatePath_of D appDirectory config.

(** X7: when the template cannot be read, [renderPages] logs the stack of
    the error and rejects with that same error; the plugin routes are not
    asked for, no page is written and nothing is removed. *)
Theorem renderPages_template_unreadable (e : Error) :
  readFile W templatePath = Threw e ->
  renderPages D W appDirectory config enableSSG =
  ((LogInfo "Rendering pages..." ::
    load_events D W appDirectory config enableSSG ++
    [GetRoutes; FsReadFile templatePath;
     LogError ("Pages render error: " ++ stack e)])%list,
   Threw e).
Proof.
  subst templatePath. intro H. unfold renderPages, load_events.
  destruct enableSSG; [destruct (importSSR W _) as [r|e']|]; simpl; now rewrite H.
Qed.

Lemma all_threw (A B : Type) (f : A -> Async B) (l : list A) (a : A) (e : Error) :
  In a l -> outcome (f a) = Threw e ->
  exists e' a', In a' l /\ outcome (f a') = Threw e'
                /\ outcome (all (List.map f l)) = Threw e'.
Proof.
  induction l as [|x l IH]; intros Hin He; [destruct Hin|].
  simpl. destruct (f x) as [t [b|ex]] eqn:Ex.
  - destruct Hin as [->|Hin]; [rewrite Ex in He; discriminate|].
    destruct (IH Hin He) as (e' & a' & Ha' & Hf & Hall).
    exists e', a'. split; [now right|]. split; [exact Hf|].
    destruct (all (List.map f l)) as [t' rs]. unfold outcome in *. simpl in *.
    now rewrite Hall.
  - exists ex, x. split; [now left|]. split; [now rewrite Ex|].
    now destruct (all (List.map f l)).
Qed.

End Fatal.

Lemma renderPages_template_unreadable_witness :
  renderPages Sample.deps Scenario.unreadable_template "/app" Sample.config true =
  ([LogInfo "Rendering pages..."; ImportModule "file:///out/ssr/bundles/main.js";
    GetRoutes; FsReadFile "/out/html/main/index.html";
    LogError "Pages render error: Error: ENOSPC"],
   Threw Scenario.disk_full).
Proof.
  exact (@renderPages_template_unreadable Sample.deps Scenario.unreadable_template
           "/app" Sample.config true Scenario.disk_full eq_refl).
Defined.

(** ** renderPages: which routes are rendered on the server *)

Section WithoutSSG.
Import Observed.
Variables (D : Deps) (W : World) (appDirectory : string) (config : UserConfig).

(** X9: with SSG disabled, [renderPages] never imports the SSR bundle,
    never calls a render function and never logs a warning, whatever the
    world answers. *)
Theorem renderPages_without_ssg_is_silent :
  Forall (fun ev => touches_ssr ev = false /\ is_warning ev = false)
         (trace (renderPages D W appDirectory config false)).
Proof.
  unfold renderPages.
  apply bind_Forall; [apply emit_Forall; now split | intros _].
  apply try_catch_Forall.
  - apply bind_Forall_returned; [apply ret_Forall | intros render Hrender].
    injection Hrender as <-.
    apply bind_Forall; [apply emit_Forall; now split | intros _].
    apply bind_Forall; [apply call_Forall; now split | intro htmlTemplate].
    apply bind_Forall; [apply call_Forall; now split | intro extra].
    apply bind_Forall.
    + rewrite all_trace. apply Forall_flat_map, Forall_forall. intros r _.
      rewrite renderPage_run. unfold trace. cbn [fst].
      apply Forall_app. split; [constructor|].
      constructor; [now split|]. destruct (ensureDir W _); repeat constructor.
    + intros _. trace_forall; now split.
  - intro e. trace_forall. now split.
Qed.

End WithoutSSG.

(** ** The page: where the rendered fragment and the attributes end up *)

Section Page.
Import Stated.
Variables (D : Deps) (config : UserConfig).

Lemma find_first_length (pat s pre post : string) :
  JS.find_first pat s = Some (pre, post) -> String.length pat <= String.length s.
Proof.
  intro H. apply find_first_sound in H. subst s.
  rewrite !length_append. lia.
Qed.

Lemma strip_prefix_none_append (pat s t : string) :
  JS.strip_prefix pat s = None -> String.length pat <= String.length s ->
  JS.strip_prefix pat (s ++ t) = None.
Proof.
  revert s. induction pat as [|a pat IH]; intros s H Hlen; [discriminate|].
  destruct s as [|b s]; simpl in *; [lia|].
  destruct (Ascii.eqb a b); [|reflexivity].
  apply IH; [exact H | lia].
Qed.

Lemma strip_prefix_some_append (pat s t rest : string) :
  JS.strip_prefix pat s = Some rest -> JS.strip_prefix pat (s ++ t) = Some (rest ++ t).
Proof.
  intro H. apply strip_prefix_sound in H. subst s.
  rewrite append_assoc. apply strip_prefix_append.
Qed.

(** Text appended after an occurrence does not move the first occurrence. *)
Lemma find_first_append (pat s t pre post : string) :
  JS.find_first pat s = Some (pre, post) ->
  JS.find_first pat (s ++ t) = Some (pre, post ++ t).
Proof.
  revert pre post. induction s as [|c s IH]; intros pre post H;
    rewrite find_first_unfold in H; rewrite find_first_unfold.
  - destruct (JS.strip_prefix pat "") eqn:E; [|discriminate].
    injection H as <- <-.
    apply strip_prefix_some_append with (t := t) in E. now rewrite E.
  - destruct (JS.strip_prefix pat (String c s)) eqn:E.
    + injection H as <- <-.
      apply strip_prefix_some_append with (t := t) in E. now rewrite E.
    + destruct (JS.find_first pat s) as [[pre0 post0]|] eqn:F; [|discriminate].
      injection H as <- <-.
      rewrite strip_prefix_none_append; [|exact E|].
      * simpl. now rewrite (IH _ _ eq_refl).
      * apply find_first_length in F. simpl. lia.
Qed.

(** X13: for a template whose head marker comes before its app marker, and
    without html or body attributes, the page is the template with the head
    replacement in place of the head marker and the rendered fragment in
    place of the app marker; the fragment is inserted as it is, whatever
    characters it holds (the head replacement being free of dollar signs). *)
Theorem app_fragment_inserted_verbatim (htmlTemplate appHtml pre post h1 h2 : string)
    (helmet : option HelmetServerState) :
  helmet_field helmet htmlAttributes = None ->
  helmet_field helmet bodyAttributes = None ->
  JS.find_first (APP_HTML_MARKER D) htmlTemplate = Some (pre, post) ->
  JS.find_first (HEAD_MARKER D) pre = Some (h1, h2) ->
  dollar_free (head_replacement D config helmet) = true ->
  html D config htmlTemplate appHtml helmet =
  h1 ++ head_replacement D config helmet ++ h2 ++ appHtml ++ post.
Proof.
  intros Ha Hb Fapp Fhead Hd. unfold html. rewrite Ha, Hb.
  unfold JS.replace_fn. rewrite Fapp.
  rewrite (@replace_dollar_free (pre ++ appHtml ++ post) (HEAD_MARKER D)
             (head_replacement D config helmet) h1 (h2 ++ appHtml ++ post));
    [reflexivity | now apply find_first_append | exact Hd].
Qed.

(** X14: a template without the app marker loses the rendered fragment: the
    page is the same whatever was rendered; and if it has no head marker
    either (and no attributes are to be injected), the page written is the
    template itself. *)
Theorem template_without_markers (htmlTemplate : string) (helmet : option HelmetServerState) :
  JS.find_first (APP_HTML_MARKER D) htmlTemplate = None ->
  (forall appHtml, html D config htmlTemplate appHtml helmet =
                   html D config htmlTemplate "" helmet)
  /\ (JS.find_first (HEAD_MARKER D) htmlTemplate = None ->
      helmet_field helmet htmlAttributes = None ->
      helmet_field helmet bodyAttributes = None ->
      forall appHtml, html D config htmlTemplate appHtml helmet = htmlTemplate).
Proof.
  intro Fapp. split.
  - intro appHtml. unfold html, JS.replace_fn. now rewrite Fapp.
  - intros Fhead Ha Hb appHtml. unfold html, JS.replace_fn, JS.replace.
    now rewrite Fapp, Fhead, Ha, Hb.
Qed.

(** X15: when the helmet state has both html and body attributes, the html
    attributes are put first, after the first occurrence of the html start
    tag in the page, and then the body attributes after the first
    occurrence of the body start tag in the result; each is separated from
    its tag by one space, also when its text is empty. *)
Theorem attributes_after_first_tags (htmlTemplate appHtml ha ba p1 q1 p2 q2 : string)
    (h : HelmetServerState) :
  htmlAttributes h = Some ha ->
  bodyAttributes h = Some ba ->
  JS.find_first (HTML_START_TAG D)
    (JS.replace (JS.replace_fn htmlTemplate (APP_HTML_MARKER D) (fun _ => appHtml))
                (HEAD_MARKER D) (head_replacement D config (Some h))) = Some (p1, q1) ->
  JS.find_first (BODY_START_TAG D) (p1 ++ (HTML_START_TAG D ++ " " ++ ha) ++ q1) =
    Some (p2, q2) ->
  dollar_free (HTML_START_TAG D ++ " " ++ ha) = true ->
  dollar_free (BODY_START_TAG D ++ " " ++ ba) = true ->
  html D config htmlTemplate appHtml (Some h) =
    p2 ++ (BODY_START_TAG D ++ " " ++ ba) ++ q2.
Proof.
  intros Ha Hb Fhtml Fbody Hdh Hdb.
  unfold html. simpl helmet_field. rewrite Ha, Hb.
  rewrite (@replace_dollar_free _ (HTML_START_TAG D) _ p1 q1 Fhtml Hdh).
  now apply replace_dollar_free.
Qed.

End Page.

Lemma app_fragment_inserted_verbatim_witness :
  html Sample.deps Sample.config Sample.template "<p>US$&</p>" None =
  "<html><head>" ++ head_replacement Sample.deps Sample.config None
  ++ "</head><body><div id='root'>" ++ "<p>US$&</p>" ++ "</div></body></html>".
Proof.
  exact (@app_fragment_inserted_verbatim Sample.deps Sample.config Sample.template
           "<p>US$&</p>" "<html><head><!--<?- HEAD ?>--></head><body><div id='root'>"
           "</div></body></html>" "<html><head>" "</head><body><div id='root'>" None
           eq_refl eq_refl eq_refl eq_refl eq_refl).
Defined.

Lemma template_without_markers_witness :
  html Sample.deps Sample.config "<html></html>" "<p>lost</p>" None = "<html></html>".
Proof.
  exact (proj2 (@template_without_markers Sample.deps Sample.config "<html></html>" None
                  eq_refl) eq_refl eq_refl eq_refl "<p>lost</p>").
Defined.

Lemma attributes_after_first_tags_witness :
  exists p2 q2,
    html Sample.deps Sample.config Sample.template "" (Some Scenario.attributes) =
    p2 ++ ("<body" ++ " " ++ "") ++ q2
    /\ JS.strip_prefix "<html lang='en'><head>" p2 <> None.
Proof.
  eexists. eexists. split.
  - eapply (@attributes_after_first_tags Sample.deps Sample.config Sample.template ""
              "lang='en'" "" "" _ _ _ Scenario.attributes); reflexivity.
  - vm_compute. discriminate.
Defined.

(** ** The file name of a route *)

Section FileName.
Import Stated.
Variables (D : Deps) (config : UserConfig).

(** X16: when the normalised base is empty (no base to strip), the file
    name is the route path followed by [index.html] or [.html], unchanged. *)
Theorem empty_base_strips_nothing (path : string) :
  normalizeSlash D (JS.or_else (base config) "/") = "" ->
  normalizeHtmlFilePath D config path =
  path ++ (if JS.endsWith path "/" then "index.html" else ".html").
Proof.
  intro H. rewrite normalizeHtmlFilePath_replace, H.
  exact (replace_empty_prefix "" (path ++ html_suffix path)).
Qed.

Lemma substring_last (s : string) (c : ascii) :
  substring (String.length s) 1 (s ++ String c "") = String c "".
Proof. induction s as [|a s IH]; simpl; [reflexivity | exact IH]. Qed.

Lemma endsWith_last (s : string) (c d : ascii) :
  JS.endsWith (s ++ String c "") (String d "") = Ascii.eqb c d.
Proof.
  unfold JS.endsWith. rewrite length_append. simpl String.length.
  replace (String.length s + 1 - 1) with (String.length s) by lia.
  rewrite substring_last.
  replace (String.length s + 1) with (S (String.length s)) by lia.
  simpl. destruct (Ascii.eqb c d); reflexivity.
Qed.

(** X17: a route path ending in a slash and the same path followed by
    [index] get the same file name, so that of two such routes the page
    written last replaces the other. *)
Theorem index_route_collides (path : string) :
  JS.endsWith path "/" = true ->
  normalizeHtmlFilePath D config (path ++ "index") = normalizeHtmlFilePath D config path.
Proof.
  intro H. unfold normalizeHtmlFilePath. rewrite H.
  change (path ++ "index") with (path ++ "inde" ++ "x").
  rewrite <- append_assoc, endsWith_last. simpl Ascii.eqb. cbv iota.
  rewrite !append_assoc. reflexivity.
Qed.

End FileName.

Lemma empty_base_strips_nothing_witness :
  normalizeHtmlFilePath Sample.deps
    {| outDir := None; base := None; head := None; ssg := None |} "/guide/" =
  "/guide/index.html".
Proof.
  exact (@empty_base_strips_nothing Sample.deps
           {| outDir := None; base := None; head := None; ssg := None |} "/guide/" eq_refl).
Defined.

Lemma index_route_collides_witness :
  normalizeHtmlFilePath Sample.deps Sample.config "/docs/guide/index" =
  normalizeHtmlFilePath Sample.deps Sample.config "/docs/guide/".
Proof.
  exact (@index_route_collides Sample.deps Sample.config "/docs/guide/" eq_refl).
Defined.

(** ** The build pipeline *)

Section BuildPipeline.
Import Observed.
Variables (D : Deps) (W : World) (docDirectory appDirectory : string) (config : UserConfig).

Let enableSSG := JS.nullish (ssg config) true.

(** X18: a build that succeeds has run, in this order, the three plugin
    hooks, the emptying of the temporary directory, [bundle] and
    [renderPages] (both on the configuration returned by the plugins, with
    the SSG flag of the original one, on by default) and the after-build
    hook, and nothing else. *)
Theorem build_runs_the_pipeline_in_order (u : unit) :
  outcome (build D W docDirectory appDirectory config) = Returned u ->
  exists modifiedConfig,
    pluginModifyConfig W = Returned modifiedConfig
    /\ trace (build D W docDirectory appDirectory config) =
       ([PluginInit; PluginModifyConfig; PluginBeforeBuild; FsEmptyDir (TEMP_DIR D)] ++
        trace (bundle D W docDirectory modifiedConfig enableSSG) ++
        trace (renderPages D W appDirectory modifiedConfig enableSSG) ++
        [PluginAfterBuild])%list.
Proof.
  subst enableSSG. unfold build, outcome, trace.
  destruct (pluginInit W) as [[]|?]; simpl; [|discriminate].
  destruct (pluginModifyConfig W) as [modifiedConfig|?]; simpl; [|discriminate].
  destruct (pluginBeforeBuild W) as [[]|?]; simpl; [|discriminate].
  destruct (emptyDir W _) as [[]|?]; simpl; [|discriminate].
  destruct (bundle D W docDirectory modifiedConfig _) as [t [[]|?]] eqn:Hbundle; simpl;
    [|discriminate].
  destruct (renderPages D W appDirectory modifiedConfig _) as [t' [[]|?]] eqn:Hrender; simpl;
    [|discriminate].
  intros _. exists modifiedConfig. split; [reflexivity|].
  now rewrite Hbundle, Hrender.
Qed.

(** X19: when [bundle] rejects, the build rejects with the same error
    right after the search index was written: no page is rendered and the
    after-build hook is not called. *)
Theorem build_stops_when_bundle_fails (modifiedConfig : UserConfig) (e : Error) :
  pluginInit W = Returned tt ->
  pluginModifyConfig W = Returned modifiedConfig ->
  pluginBeforeBuild W = Returned tt ->
  emptyDir W (TEMP_DIR D) = Returned tt ->
  outcome (bundle D W docDirectory modifiedConfig enableSSG) = Threw e ->
  build D W docDirectory appDirectory config =
  (([PluginInit; PluginModifyConfig; PluginBeforeBuild; FsEmptyDir (TEMP_DIR D)] ++
    trace (bundling D W docDirectory modifiedConfig enableSSG) ++
    [WriteSearchIndex])%list,
   Threw e).
Proof.
  subst enableSSG. intros Hinit Hmodify Hbefore Hempty Hbundle.
  pose proof (try_finally_trace (bundling D W docDirectory modifiedConfig
                                   (JS.nullish (ssg config) true))
                WriteSearchIndex (writeSearchIndex W modifiedConfig)) as Htrace.
  fold (bundle D W docDirectory modifiedConfig (JS.nullish (ssg config) true)) in Htrace.
  unfold build. rewrite Hinit, Hmodify, Hbefore, Hempty. simpl.
  destruct (bundle D W docDirectory modifiedConfig _) as [t r].
  unfold outcome, trace in *. simpl in *. subst r t. reflexivity.
Qed.

(** X20: the SSG flag is read from the configuration the build was started
    with: when it is off there, the build never builds, imports or calls an
    SSR bundle, whatever configuration the plugins return and whatever the
    world answers. *)
Theorem plugins_cannot_switch_ssg_on :
  ssg config = Some false ->
  Forall (fun ev => touches_ssr ev = false)
         (trace (build D W docDirectory appDirectory config)).
Proof.
  intro Hssg. unfold build. rewrite Hssg. simpl JS.nullish.
  apply bind_Forall; [now apply call_Forall | intros _].
  apply bind_Forall; [now apply call_Forall | intro modifiedConfig].
  apply bind_Forall; [now apply call_Forall | intros _].
  apply bind_Forall; [now apply call_Forall | intros _].
  apply bind_Forall; [|intros _; apply bind_Forall; [|intros _; now apply call_Forall]].
  - unfold bundle, bundling. apply try_finally_Forall; [|now apply call_Forall].
    apply bind_Forall.
    + apply bind_Forall; [now apply call_Forall | intros _; now apply call_Forall].
    + intros _. apply bind_Forall; [now apply call_Forall | intros [|]].
      * now apply call_Forall.
      * apply ret_Forall.
  - unfold renderPages.
    apply bind_Forall; [now apply emit_Forall | intros _].
    apply try_catch_Forall;
      [|intro e; apply bind_Forall; [now apply emit_Forall | intros _; constructor]].
    apply bind_Forall_returned; [apply ret_Forall | intros render Hrender].
    injection Hrender as <-.
    apply bind_Forall; [now apply emit_Forall | intros _].
    apply bind_Forall; [now apply call_Forall | intro htmlTemplate].
    apply bind_Forall; [now apply call_Forall | intro extra].
    apply bind_Forall.
    + rewrite all_trace. apply Forall_flat_map, Forall_forall. intros r _.
      rewrite renderPage_run. unfold trace. cbn [fst].
      constructor; [reflexivity|]. destruct (ensureDir W _); repeat constructor.
    + intros _. apply bind_Forall; [now apply call_Forall | intros _].
      apply bind_Forall; [now apply call_Forall | intros _; now apply emit_Forall].
Qed.

End BuildPipeline.

Lemma build_runs_the_pipeline_in_order_witness :
  List.filter (fun ev => match ev with
                         | PluginInit | PluginModifyConfig | PluginBeforeBuild
                         | FsEmptyDir _ | WriteSearchIndex | LogInfo _ | PluginAfterBuild => true
                         | _ => false
                         end)
    (trace (build Sample.deps (Sample.world (Returned None)) "/docs" "/app"
                  Scenario.no_ssg)) =
  [PluginInit; PluginModifyConfig; PluginBeforeBuild; FsEmptyDir "node_modules/.rspress";
   WriteSearchIndex; LogInfo "Rendering pages..."; PluginAfterBuild].
Proof.
  destruct (@build_runs_the_pipeline_in_order Sample.deps (Sample.world (Returned None))
              "/docs" "/app" Scenario.no_ssg tt eq_refl) as (modifiedConfig & Hm & Ht).
  rewrite Ht. injection Hm as <-. reflexivity.
Defined.

Lemma build_stops_when_bundle_fails_witness :
  build Sample.deps (Sample.world (Returned None)) "/docs" "/app" Sample.config =
  ([PluginInit; PluginModifyConfig; PluginBeforeBuild; FsEmptyDir "node_modules/.rspress";
    InitRsbuild false None; InitRsbuild true (Some "/out/ssr");
    BuilderBuild false; BuilderBuild true; WriteSearchIndex],
   Threw Sample.boom).
Proof.
  exact (@build_stops_when_bundle_fails Sample.deps (Sample.world (Returned None))
           "/docs" "/app" Sample.config Sample.config Sample.boom
           eq_refl eq_refl eq_refl eq_refl eq_refl).
Defined.

Lemma plugins_cannot_switch_ssg_on_witness :
  Forall (fun ev => Observed.touches_ssr ev = false)
         (trace (build Sample.deps (Sample.world (Returned (Some Sample.flaky_render)))
                       "/docs" "/app" Scenario.no_ssg)).
Proof.
  exact (@plugins_cannot_switch_ssg_on Sample.deps
           (Sample.world (Returned (Some Sample.flaky_render)))
           "/docs" "/app" Scenario.no_ssg eq_refl).
Defined.

(** * File names, pages and components: further statements *)

(** ** The file name of a route: what is removed from it *)

Section FirstOccurrence.
Import Stated.
Variable D : Deps.






End FirstOccurrence.



(** ** The head section of a page rendered with helmet data *)

Section HeadSection.
Import Stated.
Variables (D : Deps) (config : UserConfig).

(** C5: with [head = ["<meta a>"]] and helmet title [<title>T</title>], the
    replacement of the head marker is [<meta a>], then the title, then the
    other helmet groups, then the theme-detection script; it stands in place
    of the head marker when the start tags get their attributes; and for a
    template with its html tag before the head marker and its body tag after
    it, the page written is the template with the attributes after the two
    tags and this head section between them (no dollar sign in the helmet
    texts). *)
Theorem head_marker_order (h : HelmetServerState)
    (htmlTemplate appHtml pre post : string) :
  head config = Some ["<meta a>"] ->
  title h = Some "<title>T</title>" ->
  dollar_free (text (meta h) ++ text (link h) ++ text (style h) ++ text (script h)
               ++ APPEARANCE_KEY D) = true ->
  JS.find_first (HEAD_MARKER D)
    (JS.replace_fn htmlTemplate (APP_HTML_MARKER D) (fun _ => appHtml)) = Some (pre, post) ->
  head_replacement D config (Some h) =
    "<meta a>" ++ "<title>T</title>"
    ++ text (meta h) ++ text (link h) ++ text (style h) ++ text (script h)
    ++ CHECK_DARK_LIGHT_SCRIPT D
  /\ JS.replace (JS.replace_fn htmlTemplate (APP_HTML_MARKER D) (fun _ => appHtml))
                (HEAD_MARKER D) (head_replacement D config (Some h)) =
     pre ++ ("<meta a>" ++ "<title>T</title>"
             ++ text (meta h) ++ text (link h) ++ text (style h) ++ text (script h)
             ++ CHECK_DARK_LIGHT_SCRIPT D) ++ post
  /\ html D config htmlTemplate appHtml (Some h) =
     (fun page =>
        match bodyAttributes h with
        | Some attrs => JS.replace page (BODY_START_TAG D) (BODY_START_TAG D ++ " " ++ attrs)
        | None => page
        end)
       ((fun page =>
           match htmlAttributes h with
           | Some attrs =>
               JS.replace page (HTML_START_TAG D) (HTML_START_TAG D ++ " " ++ attrs)
           | None => page
           end)
          (pre ++ ("<meta a>" ++ "<title>T</title>"
                   ++ text (meta h) ++ text (link h) ++ text (style h) ++ text (script h)
                   ++ CHECK_DARK_LIGHT_SCRIPT D) ++ post))
  /\ (forall ha ba p1 p2 q1 q2,
        htmlAttributes h = Some ha ->
        bodyAttributes h = Some ba ->
        dollar_free (HTML_START_TAG D ++ " " ++ ha) = true ->
        dollar_free (BODY_START_TAG D ++ " " ++ ba) = true ->
        JS.find_first (HTML_START_TAG D) pre = Some (p1, p2) ->
        JS.find_first (BODY_START_TAG D)
          (p1 ++ (HTML_START_TAG D ++ " " ++ ha) ++ p2
           ++ ("<meta a>" ++ "<title>T</title>"
               ++ text (meta h) ++ text (link h) ++ text (style h) ++ text (script h)
               ++ CHECK_DARK_LIGHT_SCRIPT D) ++ post) =
          Some (p1 ++ (HTML_START_TAG D ++ " " ++ ha) ++ p2
                ++ ("<meta a>" ++ "<title>T</title>"
                    ++ text (meta h) ++ text (link h) ++ text (style h) ++ text (script h)
                    ++ CHECK_DARK_LIGHT_SCRIPT D) ++ q1, q2) ->
        html D config htmlTemplate appHtml (Some h) =
          p1 ++ (HTML_START_TAG D ++ " " ++ ha) ++ p2
          ++ ("<meta a>" ++ "<title>T</title>"
              ++ text (meta h) ++ text (link h) ++ text (style h) ++ text (script h)
              ++ CHECK_DARK_LIGHT_SCRIPT D)
          ++ q1 ++ (BODY_START_TAG D ++ " " ++ ba) ++ q2).
Proof.
  intros Hh Ht Hd F.
  set (section := "<meta a>" ++ "<title>T</title>"
                  ++ text (meta h) ++ text (link h) ++ text (style h) ++ text (script h)
                  ++ CHECK_DARK_LIGHT_SCRIPT D).
  assert (E : head_replacement D config (Some h) = section).
  { rewrite head_replacement_text, Hh. simpl. now rewrite Ht. }
  assert (Hsection : dollar_free section = true).
  { subst section. simpl.
    rewrite !dollar_free_append in *. rewrite CHECK_DARK_LIGHT_SCRIPT_dollar_free.
    exact Hd. }
  assert (Hpage : JS.replace (JS.replace_fn htmlTemplate (APP_HTML_MARKER D)
                                            (fun _ => appHtml))
                             (HEAD_MARKER D) (head_replacement D config (Some h)) =
                  pre ++ section ++ post).
  { rewrite E. now apply replace_dollar_free. }
  assert (Hhtml : html D config htmlTemplate appHtml (Some h) =
     (fun page =>
        match bodyAttributes h with
        | Some attrs => JS.replace page (BODY_START_TAG D) (BODY_START_TAG D ++ " " ++ attrs)
        | None => page
        end)
       ((fun page =>
           match htmlAttributes h with
           | Some attrs =>
               JS.replace page (HTML_START_TAG D) (HTML_START_TAG D ++ " " ++ attrs)
           | None => page
           end)
          (pre ++ section ++ post))).
  { unfold html. rewrite Hpage. reflexivity. }
  split; [exact E|]. split; [exact Hpage|]. split; [exact Hhtml|].
  intros ha ba p1 p2 q1 q2 Ha Hb Hdh Hdb Fhtml Fbody.
  rewrite Hhtml, Ha, Hb. cbv beta.
  rewrite (@replace_dollar_free (pre ++ section ++ post) (HTML_START_TAG D)
             (HTML_START_TAG D ++ " " ++ ha) p1 (p2 ++ section ++ post)).
  - rewrite (@replace_dollar_free _ (BODY_START_TAG D) (BODY_START_TAG D ++ " " ++ ba)
               (p1 ++ (HTML_START_TAG D ++ " " ++ ha) ++ p2 ++ section ++ q1) q2);
      [|exact Fbody|exact Hdb].
    now rewrite !append_assoc.
  - now apply find_first_append.
  - exact Hdh.
Qed.

End HeadSection.

Lemma head_marker_order_witness :
  html Sample.deps Sample.config Sample.template "<main>/docs/guide/</main>"
       (Some Scenario.titled) =
  "<html ><head><meta a><title>T</title>" ++ CHECK_DARK_LIGHT_SCRIPT Sample.deps
  ++ "</head><body ><div id='root'><main>/docs/guide/</main></div></body></html>".
Proof.
  exact (proj2 (proj2 (proj2
    (@head_marker_order Sample.deps Sample.config Scenario.titled Sample.template
       "<main>/docs/guide/</main>" "<html><head>"
       "</head><body><div id='root'><main>/docs/guide/</main></div></body></html>"
       eq_refl eq_refl eq_refl eq_refl)))
    "" "" "" "><head>" "</head>"
    "><div id='root'><main>/docs/guide/</main></div></body></html>"
    eq_refl eq_refl eq_refl eq_refl eq_refl eq_refl).
Defined.

(** ** The pages written by renderPages, in whatever order

    The page callbacks are started together and their writes complete in
    an order that changes from run to run; what is stated here of the
    files, of the warnings and of the effects before the removals does not
    depend on that order.  The routes, the file names and the page contents
    are spelled out from the route service, the plugin routes, the
    configuration and the template. *)

Section Written.

Lemma writes_In (file data : string) (t : list Effect) :
  In (file, data) (writes t) <-> In (FsWriteFile file data) t.
Proof.
  induction t as [|ev t IH]; [reflexivity|].
  destruct ev; simpl; rewrite ?IH;
    try (split; [intro H; now right | intros [H|H]; [discriminate H | exact H]]).
  split.
  - intros [H|H]; [left; now injection H as -> -> | now right].
  - intros [H|H]; [left; now injection H as -> -> | now right].
Qed.

Lemma warnings_In (msg : string) (t : list Effect) :
  In msg (warnings t) <-> In (LogWarn msg) t.
Proof.
  induction t as [|ev t IH]; [reflexivity|].
  destruct ev; simpl; rewrite ?IH;
    try (split; [intro H; now right | intros [H|H]; [discriminate H | exact H]]).
  split.
  - intros [H|H]; [left; now rewrite H | now right].
  - intros [H|H]; [left; now injection H | now right].
Qed.

End Written.

Section PagesOfARun.
Import Stated Observed.
Variables (D : Deps) (W : World) (appDirectory : string) (config : UserConfig).
Variables (htmlTemplate : string) (extra : list AdditionalRoute).

Let outputPath : string :=
  match outDir config with
  | Some dir => dir
  | None => join D [appDirectory; OUTPUT_DIR D]
  end.

Let ssrBundlePath : string := join D [outputPath; "ssr"; "bundles"; "main.js"].

(** The routes of the route service followed by the plugin routes under
    the base, and those of them without a colon in their path. *)
Let listed : list Route :=
  (getRoutes W ++
   List.map (fun added =>
               {| routePath :=
                    withBase D (route_path added)
                             (match base config with Some b => b | None => "" end) |})
            extra)%list.

Let static : list Route :=
  List.filter (fun r => negb (JS.includes (routePath r) ":")) listed.

Let file (r : Route) : string :=
  join D [outputPath; normalizeHtmlFilePath D config (routePath r)].

Let group (helmet : option HelmetServerState)
    (get : HelmetServerState -> option string) : string :=
  match helmet with
  | Some h => match get h with Some s => s | None => "" end
  | None => ""
  end.

Let attributes (helmet : option HelmetServerState)
    (get : HelmetServerState -> option string) : option string :=
  match helmet with Some h => get h | None => None end.

Let inject (tag : string) (attrs : option string) (page : string) : string :=
  match attrs with
  | Some text => JS.replace page tag (tag ++ " " ++ text)
  | None => page
  end.

(** The template with [fragment] at the app marker, the head entries, the
    helmet groups and the script at the head marker, and the attributes
    after the start tags. *)
Let page (fragment : string) (helmet : option HelmetServerState) : string :=
  inject (BODY_START_TAG D) (attributes helmet bodyAttributes)
    (inject (HTML_START_TAG D) (attributes helmet htmlAttributes)
       (JS.replace
          (JS.replace_fn htmlTemplate (APP_HTML_MARKER D) (fun _ => fragment))
          (HEAD_MARKER D)
          (String.concat "" (match head config with Some entries => entries | None => [] end)
           ++ group helmet title ++ group helmet meta ++ group helmet link
           ++ group helmet style ++ group helmet script
           ++ CHECK_DARK_LIGHT_SCRIPT D))).

Let render_warning_text (r : Route) (e : Error) : string :=
  "page " ++ dq ++ routePath r ++ dq ++ " render error: " ++ message e
  ++ ", fallback to CSR.".

Lemma html_page (fragment : string) (helmet : option HelmetServerState) :
  html D config htmlTemplate fragment helmet = page fragment helmet.
Proof.
  unfold html, page, inject, attributes, group. rewrite head_replacement_text.
  destruct helmet as [h|]; simpl; [|reflexivity].
  destruct (title h), (meta h), (link h), (style h), (script h); reflexivity.
Qed.

Hypothesis template_read :
  readFile W (join D [outputPath; "html"; "main"; "index.html"]) = Returned htmlTemplate.
Hypothesis plugin_routes : addSSGRoutes W = Returned extra.
Hypothesis ensureDir_ok : forall dir, ensureDir W dir = Returned tt.
Hypothesis writeFile_ok : forall file data, writeFile W file data = Returned tt.
Hypothesis remove_ok : forall dir, remove W dir = Returned tt.

Let run_eq (enableSSG : bool) :=
  @renderPages_trace D W appDirectory config htmlTemplate extra
     template_read plugin_routes ensureDir_ok writeFile_ok remove_ok enableSSG.

Let page_eq :=
  @renderPage_trace D W appDirectory config htmlTemplate ensureDir_ok writeFile_ok.

Lemma run_writes (enableSSG : bool) :
  writes (trace (renderPages D W appDirectory config enableSSG)) =
  List.map (fun r => (file r,
                      page (appHtml_for (render_of D W appDirectory config enableSSG)
                                        (routePath r))
                           (helmet_for (render_of D W appDirectory config enableSSG)
                                       (routePath r))))
           static.
Proof.
  rewrite (@renderPages_writes D W appDirectory config htmlTemplate extra
             template_read plugin_routes ensureDir_ok writeFile_ok remove_ok enableSSG).
  apply map_ext. intro r. unfold page_data. now rewrite html_page.
Qed.

Lemma run_renders (enableSSG : bool) :
  renders (trace (renderPages D W appDirectory config enableSSG)) =
  match render_of D W appDirectory config enableSSG with
  | Some _ => List.map routePath static
  | None => []
  end.
Proof.
  rewrite run_eq. unfold trace at 1. cbn [fst].
  rewrite renders_cons, !renders_app, renders_flat_map.
  assert (Hl : renders (load_events D W appDirectory config enableSSG) = []).
  { unfold load_events. destruct enableSSG; [|reflexivity].
    simpl. now destruct (importSSR W _). }
  rewrite Hl. cbn [renders app]. rewrite app_nil_r.
  destruct (render_of D W appDirectory config enableSSG) as [f|].
  - apply flat_map_singleton. intros r _.
    rewrite page_eq, renders_app. unfold attempt_events.
    now destruct (resolved (f (routePath r))).
  - apply flat_map_empty. intros r _. now rewrite page_eq.
Qed.

Lemma run_warnings (enableSSG : bool) :
  warnings (trace (renderPages D W appDirectory config enableSSG)) =
  (warnings (load_events D W appDirectory config enableSSG) ++
   match render_of D W appDirectory config enableSSG with
   | Some f =>
       List.flat_map
         (fun r => match resolved (f (routePath r)) with
                   | Returned _ => []
                   | Threw e => [render_warning_text r e]
                   end)
         static
   | None => []
   end)%list.
Proof.
  rewrite run_eq. unfold trace at 1. cbn [fst].
  rewrite warnings_cons, !warnings_app, warnings_flat_map.
  cbn [warnings app]. rewrite app_nil_r. f_equal.
  destruct (render_of D W appDirectory config enableSSG) as [f|].
  - apply flat_map_ext. intro r.
    rewrite page_eq, warnings_app. unfold attempt_events.
    now destruct (resolved (f (routePath r))).
  - apply flat_map_empty. intros r _. now rewrite page_eq.
Qed.

Lemma static_In (r : Route) :
  In r static <-> In r listed /\ JS.includes (routePath r) ":" = false.
Proof. unfold static. rewrite filter_In, negb_true_iff. reflexivity. Qed.

(** C3: when the import of the SSR bundle fails (SSG enabled), and the file
    system and the plugin driver answer every call, [renderPages] returns
    normally, no render function is called, the only warning logged is the
    one for the load failure, and the files written are, each once, those
    of the listed routes without a colon in their path, every one of them
    the template with nothing at the app marker and the head entries and
    the script at the head marker. *)
Theorem ssr_load_failure_falls_back_to_csr (e : Error) :
  importSSR W (pathToFileURL D ssrBundlePath) = Threw e ->
  outcome (renderPages D W appDirectory config true) = Returned tt
  /\ renders (trace (renderPages D W appDirectory config true)) = []
  /\ warnings (trace (renderPages D W appDirectory config true)) =
     ["Failed to load SSR bundle: " ++ ssrBundlePath ++ ", fallback to CSR."]
  /\ Permutation (writes (trace (renderPages D W appDirectory config true)))
                 (List.map (fun r => (file r, page "" None)) static)
  /\ (forall r, In r (getRoutes W) -> JS.includes (routePath r) ":" = false ->
        In (FsWriteFile (file r) (page "" None))
           (trace (renderPages D W appDirectory config true))).
Proof.
  intro Hload.
  change (importSSR W (pathToFileURL D (ssrBundlePath_of D appDirectory config)) = Threw e)
    in Hload.
  assert (Hrender : render_of D W appDirectory config true = None).
  { unfold render_of. now rewrite Hload. }
  assert (Hevents : load_events D W appDirectory config true =
                    [ImportModule (pathToFileURL D ssrBundlePath); LogErrorObject e;
                     LogWarn ("Failed to load SSR bundle: " ++ ssrBundlePath
                              ++ ", fallback to CSR.")]).
  { unfold load_events. now rewrite Hload. }
  assert (Hwrites : writes (trace (renderPages D W appDirectory config true)) =
                    List.map (fun r => (file r, page "" None)) static).
  { rewrite run_writes, Hrender. reflexivity. }
  split; [now rewrite run_eq|].
  split; [now rewrite run_renders, Hrender|].
  split; [now rewrite run_warnings, Hevents, Hrender|].
  split; [now rewrite Hwrites|].
  intros r Hr Hstatic. apply writes_In. rewrite Hwrites.
  apply (in_map (fun r => (file r, page "" None))). apply static_In.
  split; [|exact Hstatic]. unfold listed. apply in_or_app. now left.
Qed.

(** C4: when [render] rejects for a listed route without a colon
    (everything else answering), [renderPages] returns normally, the warning
    naming that route and the error is logged, and the file of that route
    is written with nothing at the app marker; the files written are, each
    once, those of all such routes, a route on which [render] resolved
    being written with its own fragment at the app marker. *)
Theorem render_failure_is_per_route (f : RenderFn) (route : Route) (e : Error) :
  importSSR W (pathToFileURL D ssrBundlePath) = Returned (Some f) ->
  In route listed ->
  JS.includes (routePath route) ":" = false ->
  resolved (f (routePath route)) = Threw e ->
  outcome (renderPages D W appDirectory config true) = Returned tt
  /\ In (LogWarn ("page " ++ dq ++ routePath route ++ dq ++ " render error: "
                  ++ message e ++ ", fallback to CSR."))
        (trace (renderPages D W appDirectory config true))
  /\ In (FsWriteFile (file route) (page "" (context_helmet (f (routePath route)))))
        (trace (renderPages D W appDirectory config true))
  /\ Permutation
       (writes (trace (renderPages D W appDirectory config true)))
       (List.map (fun r => (file r,
                            page (match resolved (f (routePath r)) with
                                  | Returned appHtml => appHtml
                                  | Threw _ => ""
                                  end)
                                 (context_helmet (f (routePath r)))))
                 static)
  /\ (forall other appHtml,
        In other listed ->
        JS.includes (routePath other) ":" = false ->
        resolved (f (routePath other)) = Returned appHtml ->
        In (FsWriteFile (file other) (page appHtml (context_helmet (f (routePath other)))))
           (trace (renderPages D W appDirectory config true))).
Proof.
  intros Hload Hin Hstatic Hthrow.
  change (importSSR W (pathToFileURL D (ssrBundlePath_of D appDirectory config)) =
          Returned (Some f)) in Hload.
  assert (Hrender : render_of D W appDirectory config true = Some f).
  { unfold render_of. now rewrite Hload. }
  assert (Hwrites : writes (trace (renderPages D W appDirectory config true)) =
            List.map (fun r => (file r,
                                page (match resolved (f (routePath r)) with
                                      | Returned appHtml => appHtml
                                      | Threw _ => ""
                                      end)
                                     (context_helmet (f (routePath r)))))
                     static).
  { rewrite run_writes, Hrender. reflexivity. }
  split; [now rewrite run_eq|]. split; [|split; [|split; [now rewrite Hwrites|]]].
  - apply warnings_In. rewrite run_warnings, Hrender.
    apply in_or_app. right. apply in_flat_map. exists route.
    split; [now apply static_In|]. rewrite Hthrow. now left.
  - apply writes_In. rewrite Hwrites.
    replace (page "" (context_helmet (f (routePath route))))
      with (page (match resolved (f (routePath route)) with
                  | Returned appHtml => appHtml
                  | Threw _ => ""
                  end) (context_helmet (f (routePath route))))
      by now rewrite Hthrow.
    apply in_map_iff. exists route. split; [reflexivity | now apply static_In].
  - intros other appHtml Hother Hs Hresolved. apply writes_In. rewrite Hwrites.
    replace (page appHtml (context_helmet (f (routePath other))))
      with (page (match resolved (f (routePath other)) with
                  | Returned appHtml => appHtml
                  | Threw _ => ""
                  end) (context_helmet (f (routePath other))))
      by now rewrite Hresolved.
    apply in_map_iff. exists other. split; [reflexivity | now apply static_In].
Qed.

(** X10: when the SSR bundle loads but exports no [render], and every
    other call is answered, [renderPages] returns normally, logs no warning,
    calls no render function, and writes, each once, the files of the listed
    routes without a colon, every one of them the template with nothing at
    the app marker and the head entries and the script at the head marker. *)
Theorem bundle_without_render_falls_back_silently :
  importSSR W (pathToFileURL D ssrBundlePath) = Returned None ->
  outcome (renderPages D W appDirectory config true) = Returned tt
  /\ warnings (trace (renderPages D W appDirectory config true)) = []
  /\ renders (trace (renderPages D W appDirectory config true)) = []
  /\ Permutation (writes (trace (renderPages D W appDirectory config true)))
                 (List.map (fun r => (file r, page "" None)) static)
  /\ (forall r, In r (getRoutes W) -> JS.includes (routePath r) ":" = false ->
        In (FsWriteFile (file r) (page "" None))
           (trace (renderPages D W appDirectory config true))).
Proof.
  intro Hload.
  change (importSSR W (pathToFileURL D (ssrBundlePath_of D appDirectory config)) =
          Returned None) in Hload.
  assert (Hrender : render_of D W appDirectory config true = None).
  { unfold render_of. now rewrite Hload. }
  assert (Hevents : load_events D W appDirectory config true =
                    [ImportModule (pathToFileURL D ssrBundlePath)]).
  { unfold load_events. now rewrite Hload. }
  assert (Hwrites : writes (trace (renderPages D W appDirectory config true)) =
                    List.map (fun r => (file r, page "" None)) static).
  { rewrite run_writes, Hrender. reflexivity. }
  split; [now rewrite run_eq|].
  split; [now rewrite run_warnings, Hevents, Hrender|].
  split; [now rewrite run_renders, Hrender|].
  split; [now rewrite Hwrites|].
  intros r Hr Hstatic. apply writes_In. rewrite Hwrites.
  apply in_map_iff. exists r. split; [reflexivity|]. apply static_In.
  split; [|exact Hstatic]. unfold listed. apply in_or_app. now left.
Qed.

(** X11: with a loaded [render] (and every other call answered), [render]
    is called exactly once for every listed route without a colon, in the
    order of the list and with the route path; the warnings logged are, in
    whatever order, one for every such route on which [render] rejects,
    naming the route and the error, and no other. *)
Theorem render_called_once_per_static_route (f : RenderFn) :
  importSSR W (pathToFileURL D ssrBundlePath) = Returned (Some f) ->
  renders (trace (renderPages D W appDirectory config true)) = List.map routePath static
  /\ Permutation
       (warnings (trace (renderPages D W appDirectory config true)))
       (List.flat_map
          (fun r => match resolved (f (routePath r)) with
                    | Returned _ => []
                    | Threw e =>
                        ["page " ++ dq ++ routePath r ++ dq ++ " render error: "
                         ++ message e ++ ", fallback to CSR."]
                    end)
          static).
Proof.
  intro Hload.
  change (importSSR W (pathToFileURL D (ssrBundlePath_of D appDirectory config)) =
          Returned (Some f)) in Hload.
  assert (Hrender : render_of D W appDirectory config true = Some f).
  { unfold render_of. now rewrite Hload. }
  assert (Hevents : load_events D W appDirectory config true =
                    [ImportModule (pathToFileURL D ssrBundlePath)]).
  { unfold load_events. now rewrite Hload. }
  split; [now rewrite run_renders, Hrender|].
  rewrite run_warnings, Hevents, Hrender. reflexivity.
Qed.

(** X12: in a run in which every call is answered, the last three effects
    are the removal of [ssr] under the output directory, the removal of
    [html] under it and the success message; nothing is removed before, and
    the files written before are, each once, those of the listed routes
    without a colon. *)
Theorem intermediate_directories_removed_last (enableSSG : bool) :
  exists pages,
    trace (renderPages D W appDirectory config enableSSG) =
      (pages ++ [FsRemove (join D [outputPath; "ssr"]);
                 FsRemove (join D [outputPath; "html"]);
                 LogSuccess ("Pages rendered in " ++ totalTime W ++ " ms.")])%list
    /\ Forall (fun ev => is_remove ev = false) pages
    /\ Permutation (List.map fst (writes pages)) (List.map file static).
Proof.
  exists (LogInfo "Rendering pages..." ::
          load_events D W appDirectory config enableSSG ++
          [GetRoutes; FsReadFile (htmlTemplatePath_of D appDirectory config);
           PluginAddSSGRoutes] ++
          List.flat_map
            (fun r => trace (renderPage D W config (outputPath_of D appDirectory config)
                               htmlTemplate
                               (render_of D W appDirectory config enableSSG) r))
            (staticRoutes D W config extra))%list.
  split; [|split].
  - rewrite run_eq. unfold trace at 1. cbn [fst].
    cbn [app]. f_equal. now rewrite <- !app_assoc.
  - constructor; [reflexivity|]. apply Forall_app. split.
    { unfold load_events. destruct enableSSG; [|constructor].
      constructor; [reflexivity|]. destruct (importSSR W _); repeat constructor. }
    apply Forall_app. split; [repeat constructor|].
    apply Forall_flat_map, Forall_forall. intros r _.
    rewrite page_eq. apply Forall_app. split; [|repeat constructor].
    unfold attempt_events.
    destruct (render_of D W appDirectory config enableSSG) as [f|]; [|constructor].
    constructor; [reflexivity|]. destruct (resolved (f _)); repeat constructor.
  - rewrite writes_cons, !writes_app, writes_flat_map, load_events_writes.
    cbn [writes app].
    rewrite (flat_map_singleton
               (fun r => writes (trace (renderPage D W config
                                          (outputPath_of D appDirectory config) htmlTemplate
                                          (render_of D W appDirectory config enableSSG) r)))
               (fun r => (file r,
                          page_data D config htmlTemplate
                                    (render_of D W appDirectory config enableSSG) r))).
    + now rewrite map_map.
    + intros r _. rewrite page_eq, writes_app, attempt_events_writes. reflexivity.
Qed.

End PagesOfARun.

Lemma ssr_load_failure_falls_back_to_csr_witness :
  warnings (trace (renderPages Sample.deps (Sample.world (Threw Sample.boom))
                               "/app" Sample.config true)) =
    ["Failed to load SSR bundle: /out/ssr/bundles/main.js, fallback to CSR."]
  /\ In (FsWriteFile "/out/guide/index.html"
           ("<html><head><meta a>" ++ CHECK_DARK_LIGHT_SCRIPT Sample.deps
            ++ "</head><body><div id='root'></div></body></html>"))
        (trace (renderPages Sample.deps (Sample.world (Threw Sample.boom))
                            "/app" Sample.config true)).
Proof.
  pose proof (@ssr_load_failure_falls_back_to_csr Sample.deps
                (Sample.world (Threw Sample.boom))
                "/app" Sample.config Sample.template [ {| route_path := "/extra" |} ]
                eq_refl eq_refl (fun _ => eq_refl) (fun _ _ => eq_refl) (fun _ => eq_refl)
                Sample.boom eq_refl) as (_ & _ & Hwarn & _ & Hfile).
  split; [exact Hwarn|].
  exact (Hfile {| routePath := "/docs/guide/" |} (or_introl eq_refl) eq_refl).
Defined.

Lemma render_failure_is_per_route_witness :
  In (LogWarn (String.concat dq ["page "; "/docs/x"; " render error: boom, fallback to CSR."]))
     (trace (renderPages Sample.deps (Sample.world (Returned (Some Sample.flaky_render)))
                         "/app" Sample.config true))
  /\ In (FsWriteFile "/out/x.html"
           ("<html><head><meta a>" ++ CHECK_DARK_LIGHT_SCRIPT Sample.deps
            ++ "</head><body><div id='root'></div></body></html>"))
        (trace (renderPages Sample.deps (Sample.world (Returned (Some Sample.flaky_render)))
                            "/app" Sample.config true))
  /\ In (FsWriteFile "/out/guide/index.html"
           ("<html><head><meta a><title>T</title>" ++ CHECK_DARK_LIGHT_SCRIPT Sample.deps
            ++ "</head><body><div id='root'><main>/docs/guide/</main></div></body></html>"))
        (trace (renderPages Sample.deps (Sample.world (Returned (Some Sample.flaky_render)))
                            "/app" Sample.config true)).
Proof.
  pose proof (@render_failure_is_per_route Sample.deps
                (Sample.world (Returned (Some Sample.flaky_render)))
                "/app" Sample.config Sample.template [ {| route_path := "/extra" |} ]
                eq_refl eq_refl (fun _ => eq_refl) (fun _ _ => eq_refl) (fun _ => eq_refl)
                Sample.flaky_render {| routePath := "/docs/x" |} Sample.boom
                eq_refl (or_intror (or_introl eq_refl)) eq_refl eq_refl)
    as (_ & Hwarn & Hfile & _ & Hothers).
  split; [exact Hwarn|]. split; [exact Hfile|].
  exact (Hothers {| routePath := "/docs/guide/" |} "<main>/docs/guide/</main>"
                 (or_introl eq_refl) eq_refl eq_refl).
Defined.

Lemma bundle_without_render_falls_back_silently_witness :
  warnings (trace (renderPages Sample.deps (Sample.world (Returned None))
                               "/app" Sample.config true)) = []
  /\ In (FsWriteFile "/out/x.html"
           ("<html><head><meta a>" ++ CHECK_DARK_LIGHT_SCRIPT Sample.deps
            ++ "</head><body><div id='root'></div></body></html>"))
        (trace (renderPages Sample.deps (Sample.world (Returned None))
                            "/app" Sample.config true)).
Proof.
  pose proof (@bundle_without_render_falls_back_silently Sample.deps
                (Sample.world (Returned None))
                "/app" Sample.config Sample.template [ {| route_path := "/extra" |} ]
                eq_refl eq_refl (fun _ => eq_refl) (fun _ _ => eq_refl) (fun _ => eq_refl)
                eq_refl) as (_ & Hwarn & _ & _ & Hfile).
  split; [exact Hwarn|].
  exact (Hfile {| routePath := "/docs/x" |} (or_intror (or_introl eq_refl)) eq_refl).
Defined.

Lemma render_called_once_per_static_route_witness :
  renders (trace (renderPages Sample.deps
                    (Sample.world (Returned (Some Sample.flaky_render)))
                    "/app" Sample.config true)) =
    ["/docs/guide/"; "/docs/x"; "/docs/extra"]
  /\ Permutation
       (warnings (trace (renderPages Sample.deps
                           (Sample.world (Returned (Some Sample.flaky_render)))
                           "/app" Sample.config true)))
       [String.concat dq ["page "; "/docs/x"; " render error: boom, fallback to CSR."]].
Proof.
  exact (@render_called_once_per_static_route Sample.deps
           (Sample.world (Returned (Some Sample.flaky_render)))
           "/app" Sample.config Sample.template [ {| route_path := "/extra" |} ]
           eq_refl eq_refl (fun _ => eq_refl) (fun _ _ => eq_refl) (fun _ => eq_refl)
           Sample.flaky_render eq_refl).
Defined.

Lemma intermediate_directories_removed_last_witness :
  exists pages,
    trace (renderPages Sample.deps (Sample.world (Returned None)) "/app" Sample.config true) =
      (pages ++ [FsRemove "/out/ssr"; FsRemove "/out/html";
                 LogSuccess "Pages rendered in 12 ms."])%list
    /\ Forall (fun ev => Observed.is_remove ev = false) pages
    /\ Permutation (List.map fst (writes pages))
                   ["/out/guide/index.html"; "/out/x.html"; "/out/extra.html"].
Proof.
  exact (@intermediate_directories_removed_last Sample.deps (Sample.world (Returned None))
           "/app" Sample.config Sample.template [ {| route_path := "/extra" |} ]
           eq_refl eq_refl (fun _ => eq_refl) (fun _ _ => eq_refl) (fun _ => eq_refl)
           true).
Defined.

(** ** Successful and failed runs of renderPages, whatever the answers *)

Section AnyRun.
Import Stated Observed.
Variables (D : Deps) (W : World) (appDirectory : string) (config : UserConfig).
Variable enableSSG : bool.

Let outputPath : string :=
  match outDir config with
  | Some dir => dir
  | None => join D [appDirectory; OUTPUT_DIR D]
  end.

Let listed (extra : list AdditionalRoute) : list Route :=
  (getRoutes W ++
   List.map (fun added =>
               {| routePath :=
                    withBase D (route_path added)
                             (match base config with Some b => b | None => "" end) |})
            extra)%list.

Let static (extra : list AdditionalRoute) : list Route :=
  List.filter (fun r => negb (JS.includes (routePath r) ":")) (listed extra).

Let file (r : Route) : string :=
  join D [outputPath; normalizeHtmlFilePath D config (routePath r)].

Let directory (r : Route) : string :=
  join D [outputPath; dirname D (normalizeHtmlFilePath D config (routePath r))].

Lemma static_listed (extra : list AdditionalRoute) (r : Route) :
  In r (static extra) <-> In r (listed extra) /\ JS.includes (routePath r) ":" = false.
Proof. unfold static. rewrite filter_In, negb_true_iff. reflexivity. Qed.


Lemma renderPage_effects (htmlTemplate : string) (render : option RenderFn) (r : Route) :
  Forall (fun ev => is_remove ev = false /\ is_success ev = false)
         (trace (renderPage D W config outputPath htmlTemplate render r)).
Proof.
  rewrite renderPage_run. unfold trace. cbn [fst]. apply Forall_app. split.
  - unfold attempt_events. destruct render as [f|]; [|constructor].
    constructor; [now split|]. destruct (resolved (f _)); repeat constructor.
  - constructor; [now split|]. destruct (ensureDir W _); repeat constructor.
Qed.

(** X8: when the directory or the file of a listed route without a colon
    cannot be written, [renderPages] rejects, with the error of a page
    callback that rejected, and logs the stack of that error; it removes no
    intermediate directory and logs no success message. *)
Theorem renderPages_page_failure_is_fatal (htmlTemplate : string)
    (extra : list AdditionalRoute) (route : Route) (e : Error) :
  readFile W (join D [outputPath; "html"; "main"; "index.html"]) = Returned htmlTemplate ->
  addSSGRoutes W = Returned extra ->
  In route (listed extra) ->
  JS.includes (routePath route) ":" = false ->
  (ensureDir W (directory route) = Threw e
   \/ (ensureDir W (directory route) = Returned tt
       /\ forall data, writeFile W (file route) data = Threw e)) ->
  exists e' route',
    In route' (listed extra)
    /\ JS.includes (routePath route') ":" = false
    /\ outcome (renderPage D W config outputPath htmlTemplate
                           (render_of D W appDirectory config enableSSG) route') = Threw e'
    /\ outcome (renderPages D W appDirectory config enableSSG) = Threw e'
    /\ In (LogError ("Pages render error: " ++ stack e'))
          (trace (renderPages D W appDirectory config enableSSG))
    /\ Forall (fun ev => is_remove ev = false /\ is_success ev = false)
              (trace (renderPages D W appDirectory config enableSSG)).
Proof.
  intros Hread Hextra Hin Hstatic Hfail.
  set (render := render_of D W appDirectory config enableSSG).
  assert (He : outcome (renderPage D W config outputPath htmlTemplate render route) = Threw e).
  { rewrite renderPage_run. unfold outcome. cbn [snd].
    change (page_dir D config outputPath route) with (directory route).
    change (page_file D config outputPath route) with (file route).
    destruct Hfail as [Hd | [Hd Hw]]; rewrite Hd; [reflexivity | apply Hw]. }
  assert (Hroute : In route (staticRoutes D W config extra)).
  { change (In route (static extra)). apply static_listed. now split. }
  destruct (@all_threw _ _ (renderPage D W config outputPath htmlTemplate render)
              (staticRoutes D W config extra) route e Hroute He)
    as (e' & route' & Hin' & He' & Hall).
  exists e', route'.
  change (In route' (static extra)) in Hin'. apply static_listed in Hin'.
  destruct Hin' as [Hl' Hs'].
  split; [exact Hl'|]. split; [exact Hs'|]. split; [exact He'|].
  assert (Hrun : renderPages D W appDirectory config enableSSG =
       ((LogInfo "Rendering pages..." ::
         load_events D W appDirectory config enableSSG ++
         [GetRoutes; FsReadFile (htmlTemplatePath_of D appDirectory config);
          PluginAddSSGRoutes] ++
         List.flat_map
           (fun r => trace (renderPage D W config outputPath htmlTemplate render r))
           (staticRoutes D W config extra) ++
         [LogError ("Pages render error: " ++ stack e')])%list,
        Threw e')).
  { pose proof (all_trace (renderPage D W config outputPath htmlTemplate render)
                          (staticRoutes D W config extra)) as Htr.
    destruct (all (List.map (renderPage D W config outputPath htmlTemplate render)
                            (staticRoutes D W config extra))) as [t rs] eqn:Eall.
    unfold outcome, trace in Hall, Htr. simpl in Hall, Htr. subst rs t.
    change (readFile W (htmlTemplatePath_of D appDirectory config) = Returned htmlTemplate)
      in Hread.
    subst render outputPath.
    unfold renderPages, load_events, render_of in *.
    destruct enableSSG; [destruct (importSSR W _) as [r|e0]|]; simpl;
      rewrite Hread, Hextra; simpl;
      change (match outDir config with
              | Some dir => dir
              | None => join D [appDirectory; OUTPUT_DIR D]
              end) with (outputPath_of D appDirectory config) in Eall;
      rewrite Eall; simpl; rewrite <- ?app_assoc; reflexivity. }
  rewrite Hrun. unfold outcome, trace. cbn [fst snd].
  split; [reflexivity|]. split.
  - right. apply in_or_app. right. apply in_or_app. right.
    apply in_or_app. right. now left.
  - constructor; [now split|]. apply Forall_app. split.
    { unfold load_events. destruct enableSSG; [|constructor].
      constructor; [now split|]. destruct (importSSR W _); repeat constructor. }
    apply Forall_app. split; [repeat constructor|].
    apply Forall_app. split; [|repeat constructor].
    apply Forall_flat_map, Forall_forall. intros r _. apply renderPage_effects.
Qed.

End AnyRun.


Lemma renderPages_page_failure_is_fatal_witness :
  exists e',
    outcome (renderPages Sample.deps Scenario.one_write_fails "/app" Sample.config false)
      = Threw e'
    /\ In (LogError ("Pages render error: " ++ stack e'))
          (trace (renderPages Sample.deps Scenario.one_write_fails "/app" Sample.config false)).
Proof.
  destruct (@renderPages_page_failure_is_fatal Sample.deps Scenario.one_write_fails
              "/app" Sample.config false Sample.template [ {| route_path := "/extra" |} ]
              {| routePath := "/docs/x" |} Scenario.disk_full
              eq_refl eq_refl (or_intror (or_introl eq_refl)) eq_refl
              (or_intror (conj eq_refl (fun _ => eq_refl))))
    as (e' & route' & _ & _ & _ & Hout & Hlog & _).
  exists e'. split; [exact Hout | exact Hlog].
Defined.

(** ** Content and the memoised TransitionContent *)

Section ContentComponent.
Import Content.
Variable R : Runtime.

(** C8 (as amended): when [normalizeRoutePath] returns and the router
    answers [null] for the normalised pathname, [Content] returns the empty
    [div]; when the router answers with matches, [Content] shows the
    element of the first of them, as it is in a server render with a React
    older than 18 and inside [Suspense] and [TransitionContent] otherwise;
    an exception of [normalizeRoutePath] leaves [Content]. *)
Theorem Content_follows_the_router (fallback : option ReactNode) (pathname : string) :
  (forall e, normalizeRoutePath R pathname = Threw e ->
             Content R fallback pathname = Threw e)
  /\ (forall normalized,
        normalizeRoutePath R pathname = Content.Returned normalized ->
        matchRoutes R (routes R) normalized = Content.Returned None ->
        Content R fallback pathname = Content.Returned EmptyDiv)
  /\ (forall normalized m rest,
        normalizeRoutePath R pathname = Content.Returned normalized ->
        matchRoutes R (routes R) normalized = Content.Returned (Some (m :: rest)) ->
        Content R fallback pathname =
        Content.Returned
          (if REACT_GTE_18 R then
             Suspense (match fallback with Some node => node | None => EmptyFragment end)
                      {| el := element (route m) |}
           else if SSR R then Direct (element (route m))
           else Suspense (match fallback with Some node => node | None => EmptyFragment end)
                         {| el := element (route m) |})).
Proof.
  unfold Content. split; [|split].
  - intros e ->. reflexivity.
  - intros normalized -> ->. reflexivity.
  - intros normalized m rest -> ->.
    destruct (REACT_GTE_18 R), (SSR R), fallback; reflexivity.
Qed.


End ContentComponent.

Lemma Content_follows_the_router_witness :
  Content.Content Scenario.ranked None "/nope/x" = Content.Returned Content.EmptyDiv
  /\ Content.Content Scenario.ranked None "/guide" =
     Content.Returned (Content.Suspense Content.EmptyFragment {| Content.el := 2 |})
  /\ Content.Content Scenario.ranked None "/%" = Content.Threw (Content.Thrown "URIError").
Proof.
  split; [|split].
  - exact (proj1 (proj2 (@Content_follows_the_router Scenario.ranked None "/nope/x"))
                 "/nope/x" eq_refl eq_refl).
  - exact (proj2 (proj2 (@Content_follows_the_router Scenario.ranked None "/guide"))
                 "/guide"
                 {| Content.route := {| Content.path := "/guide"; Content.element := 2 |};
                    Content.pathname_matched := "/guide" |}
                 [] eq_refl eq_refl).
  - exact (proj1 (@Content_follows_the_router Scenario.ranked None "/%")
                 (Content.Thrown "URIError") eq_refl).
Defined.

(** C8 (as stated) fails: in a table that lists [/:id] before [/guide],
    both entries match the pathname [/guide] and the router ranks the
    static one first, so [Content] shows the second entry of the table. *)
Lemma ranked_router_shows_a_later_entry :
  ~ (forall R : Content.Runtime, Stated.first_match_in_table_order R).
Proof.
  intro H. specialize (H Scenario.ranked None "/guide" "/guide" eq_refl).
  vm_compute in H. destruct H as (rendered & Hr & Hs).
  injection Hr as <-. discriminate Hs.
Qed.

